(** * Adaptive AI: pattern learner, intent predictor and prediction cache

    A shallow embedding of the prediction core of the Python package
    [adaptive_ai] ([pattern_learner.py], [intent_predictor.py] and the
    cache of [adaptive_engine.py]) together with the properties its
    specification states about it.

    Conventions of the embedding:
    - a Python [str] is a [string]; only ASCII text is modelled, so
      [lower], [split] and case-insensitive matching act on ASCII;
    - a Python [float] confidence is an exact rational [Q]; the code only
      adds a few decimal constants, divides two small counters and
      compares, so the rational reading decides the same branches;
    - a Python [dict] is an insertion-ordered association list, because
      the code iterates over dictionaries and breaks ties by that order;
    - an operation that can raise ([l[-1]], [l[i]], [max] of an empty
      list, [/] by zero) returns a [result], and the methods that use it
      run in that error monad;
    - a method that mutates [self] returns the new state. *)

From Stdlib Require Import String Ascii List ZArith QArith Qminmax Bool Lia Lqa.
From Stdlib Require Import Permutation Qabs.
Import ListNotations.

Open Scope string_scope.
Open Scope list_scope.

(* ================================================================== *)
(** * Python runtime fragments *)
(* ================================================================== *)

Module Py.

Inductive exn : Type :=
| IndexError | ValueError | ZeroDivisionError | AttributeError | TypeError.

Inductive result (A : Type) : Type :=
| Ok (a : A)
| Raise (e : exn).
Arguments Ok {A} a.
Arguments Raise {A} e.

Definition bind {A B} (m : result A) (k : A -> result B) : result B :=
  match m with
  | Ok a => k a
  | Raise e => Raise e
  end.

(** Truth value of a [str], of an [Optional[str]] and of an
    [Optional[list]]: [None], [''] and [[]] are false. *)
Definition truthy_str (s : string) : bool := negb (s =? "").

Definition truthy_opt (o : option string) : bool :=
  match o with
  | Some s => truthy_str s
  | None => false
  end.

Definition truthy_list {A} (l : list A) : bool :=
  match l with
  | [] => false
  | _ :: _ => true
  end.

Definition truthy_optlist {A} (o : option (list A)) : bool :=
  match o with
  | Some l => truthy_list l
  | None => false
  end.

(** [l[i]] for a non-negative [i]. *)
Definition index {A} (l : list A) (i : nat) : result A :=
  match nth_error l i with
  | Some x => Ok x
  | None => Raise IndexError
  end.

(** [l[-1]]. *)
Definition index_last {A} (l : list A) : result A :=
  match l with
  | [] => Raise IndexError
  | _ :: _ => index l (length l - 1)
  end.

(** [l[:-1]]. *)
Definition slice_init {A} (l : list A) : list A := removelast l.

(** [enumerate(l)], as the list of its pairs. *)
Definition enumerate {A} (l : list A) : list (nat * A) :=
  combine (seq 0 (length l)) l.

(** [for x in xs: body], threading the variables the body updates. *)
Fixpoint for_each {A S} (xs : list A) (body : S -> A -> result S) (s : S)
  : result S :=
  match xs with
  | [] => Ok s
  | x :: xs' => bind (body s x) (for_each xs' body)
  end.

(** [max(l, key=key)]: the first element whose key is not exceeded
    later; [ValueError] on an empty list. *)
Definition max_by {A} (key : A -> Q) (l : list A) : result A :=
  match l with
  | [] => Raise ValueError
  | x :: rest =>
      Ok (fold_left
            (fun best y => if Qle_bool (key y) (key best) then best else y)
            rest x)
  end.

(** [a / b] on two [int]s. *)
Definition truediv (a b : Z) : result Q :=
  if (b =? 0)%Z then Raise ZeroDivisionError
  else Ok (inject_Z a / inject_Z b)%Q.

(** ** Strings *)

Definition lower_ascii (c : ascii) : ascii :=
  let n := nat_of_ascii c in
  if (65 <=? n)%nat && (n <=? 90)%nat then ascii_of_nat (n + 32) else c.

(** [s.lower()]. *)
Fixpoint lower (s : string) : string :=
  match s with
  | EmptyString => EmptyString
  | String c s' => String (lower_ascii c) (lower s')
  end.

(** [c.isspace()] on ASCII: tab, line feed, vertical tab, form feed,
    carriage return, the four separators 28..31 and the space. *)
Definition is_space (c : ascii) : bool :=
  let n := nat_of_ascii c in
  ((9 <=? n)%nat && (n <=? 13)%nat)
  || ((28 <=? n)%nat && (n <=? 32)%nat).

Definition flush (cur : string) (k : list string) : list string :=
  match cur with
  | EmptyString => k
  | _ => cur :: k
  end.

Fixpoint split_from (cur s : string) : list string :=
  match s with
  | EmptyString => flush cur []
  | String c s' =>
      if is_space c then flush cur (split_from "" s')
      else split_from (cur ++ String c "") s'
  end.

(** [s.split()]: the maximal runs of non-whitespace characters. *)
Definition split (s : string) : list string := split_from "" s.

(** [needle in hay] on strings. *)
Fixpoint contains (needle hay : string) : bool :=
  prefix needle hay
  || match hay with
     | EmptyString => false
     | String _ hay' => contains needle hay'
     end.

(** [s[:n]]. *)
Definition take (n : nat) (s : string) : string := substring 0 n s.

(** [x in l] on a list of strings. *)
Definition mem (x : string) (l : list string) : bool :=
  existsb (String.eqb x) l.

(** [set(l)], as the list of its distinct elements. *)
Definition set_of (l : list string) : list string := nodup string_dec l.

(** [len(a & b)] and [len(a | b)] on two sets. *)
Definition inter_size (a b : list string) : nat :=
  length (filter (fun x => mem x b) a).

Definition union_size (a b : list string) : nat :=
  length a + length (filter (fun x => negb (mem x a)) b).

End Py.

Import Py.

Notation "x <- m ;; k" := (Py.bind m (fun x => k))
  (at level 61, m at next level, right associativity).

(* ================================================================== *)
(** * Dictionaries in insertion order, and [collections.Counter] *)
(* ================================================================== *)

Module Dict.

Definition t (V : Type) : Type := list (string * V).

Definition empty {V} : t V := [].

(** [d.get(k)]. *)
Fixpoint get {V} (d : t V) (k : string) : option V :=
  match d with
  | [] => None
  | (k', v) :: d' => if k' =? k then Some v else get d' k
  end.

(** [k in d]. *)
Definition mem {V} (d : t V) (k : string) : bool :=
  match get d k with
  | Some _ => true
  | None => false
  end.

(** [d[k] = v]: an existing key keeps its place, a new key goes last. *)
Fixpoint set {V} (d : t V) (k : string) (v : V) : t V :=
  match d with
  | [] => [(k, v)]
  | (k', v') :: d' =>
      if k' =? k then (k', v) :: d' else (k', v') :: set d' k v
  end.

(** [d[k]] on a [defaultdict] whose factory returns [dflt]: a missing
    key is inserted with the default before it is returned. *)
Definition getitem_default {V} (dflt : V) (d : t V) (k : string)
  : V * t V :=
  match get d k with
  | Some v => (v, d)
  | None => (dflt, set d k dflt)
  end.

Definition items {V} (d : t V) : list (string * V) := d.

End Dict.

Module Counter.

Definition t : Type := Dict.t nat.

Definition incr (c : t) (x : string) : t :=
  match Dict.get c x with
  | Some n => Dict.set c x (S n)
  | None => Dict.set c x 1%nat
  end.

(** [Counter(xs)]: keys in order of first occurrence. *)
Definition of_list (xs : list string) : t := fold_left incr xs Dict.empty.

(** [c.most_common(1)]: the first entry with the largest count, or the
    empty list for an empty counter. *)
Definition most_common1 (c : t) : list (string * nat) :=
  match c with
  | [] => []
  | e :: rest =>
      [fold_left
         (fun best e' => if (snd e' <=? snd best)%nat then best else e')
         rest e]
  end.

End Counter.

(** [collections.Counter] over any hashable key: hours, tuples of
    labels, context strings. The keys stand in order of first
    occurrence. *)
Module Tally.

Section Keys.

Variable K : Type.
Variable eqb : K -> K -> bool.

Definition t : Type := list (K * nat).

Fixpoint get (c : t) (k : K) : option nat :=
  match c with
  | [] => None
  | (k', n) :: c' => if eqb k' k then Some n else get c' k
  end.

Fixpoint set (c : t) (k : K) (n : nat) : t :=
  match c with
  | [] => [(k, n)]
  | (k', n') :: c' =>
      if eqb k' k then (k', n) :: c' else (k', n') :: set c' k n
  end.

Definition incr (c : t) (x : K) : t :=
  match get c x with
  | Some n => set c x (S n)
  | None => set c x 1%nat
  end.

(** [Counter(xs)]. *)
Definition of_list (xs : list K) : t := fold_left incr xs [].

(** [c.most_common(1)]. *)
Definition most_common1 (c : t) : list (K * nat) :=
  match c with
  | [] => []
  | e :: rest =>
      [fold_left
         (fun best e' => if (snd e' <=? snd best)%nat then best else e')
         rest e]
  end.

(** One step of a stable sort by decreasing count: [e] goes before the
    first entry with a smaller count. *)
Fixpoint insert_desc (e : K * nat) (l : t) : t :=
  match l with
  | [] => [e]
  | e' :: l' =>
      if (snd e' <? snd e)%nat then e :: l else e' :: insert_desc e l'
  end.

(** [c.most_common(n)]: the [n] largest counts, equal counts in the
    order of the counter. *)
Definition most_common (n : nat) (c : t) : list (K * nat) :=
  firstn n (fold_left (fun acc e => insert_desc e acc) c []).

End Keys.

Arguments get {K} eqb c k.
Arguments set {K} eqb c k n.
Arguments incr {K} eqb c x.
Arguments of_list {K} eqb xs.
Arguments most_common1 {K} c.
Arguments insert_desc {K} e l.
Arguments most_common {K} n c.

End Tally.

(* ================================================================== *)
(** * pattern_learner.py *)
(* ================================================================== *)

Module PatternLearner.

Record counts : Type := { success : Z; failure : Z }.

(** The four attributes set by [__init__]. *)
Record t : Type := {
  sequences : list (list string);
  action_contexts : Dict.t (list string);
  action_success : Dict.t counts;
  time_patterns : Dict.t (list Z)
}.

Definition zero_counts : counts := {| success := 0; failure := 0 |}.

Definition init : t :=
  {| sequences := [];
     action_contexts := Dict.empty;
     action_success := Dict.empty;
     time_patterns := Dict.empty |}.

(** The dictionary a prediction is returned as. *)
Record Prediction : Type := {
  action : option string;
  confidence : Q;
  strategy : string;
  reasoning : string
}.

Definition observe (self : t) (act context : string) (ok : bool) (hour : Z)
  : t :=
  let (ctxs, d_ctx) := Dict.getitem_default [] (action_contexts self) act in
  let d_ctx := Dict.set d_ctx act (ctxs ++ [context]) in
  let (st, d_succ) :=
    Dict.getitem_default zero_counts (action_success self) act in
  let d_succ :=
    Dict.set d_succ act
      (if ok
       then {| success := success st + 1; failure := failure st |}
       else {| success := success st; failure := failure st + 1 |}) in
  let (hours, d_time) := Dict.getitem_default [] (time_patterns self) act in
  let d_time := Dict.set d_time act (hours ++ [hour]) in
  {| sequences := sequences self;
     action_contexts := d_ctx;
     action_success := d_succ;
     time_patterns := d_time |}.

Definition observe_sequence (self : t) (actions : list string) : t :=
  if (2 <=? length actions)%nat then
    {| sequences := sequences self ++ [actions];
       action_contexts := action_contexts self;
       action_success := action_success self;
       time_patterns := time_patterns self |}
  else self.

(** The body of the inner loop of [predict_from_sequences]. *)
Definition follower_step (last_action : string) (sq : list string)
    (next_actions : list string) (ia : nat * string)
  : result (list string) :=
  let (i, a) := ia in
  if a =? last_action then
    nxt <- index sq (i + 1) ;;
    Ok (next_actions ++ [nxt])
  else Ok next_actions.

Definition predict_from_sequences (self : t)
    (recent_actions : option (list string)) : result (option string) :=
  last_action <-
    match recent_actions with
    | Some l =>
        if truthy_list l then x <- index_last l ;; Ok (Some x) else Ok None
    | None => Ok None
    end ;;
  match last_action with
  | None => Ok None
  | Some last =>
      if negb (truthy_str last) then Ok None
      else
        next_actions <-
          for_each (sequences self)
            (fun acc sq =>
               for_each (enumerate (slice_init sq))
                 (follower_step last sq) acc)
            [] ;;
        if truthy_list next_actions then
          top <- index (Counter.most_common1 (Counter.of_list next_actions))
                   0 ;;
          Ok (Some (fst top))
        else Ok None
  end.

Definition threshold : Q := 3 # 10.

Definition contexts_similar (ctx1 ctx2 : string) : result bool :=
  let words1 := set_of (split ctx1) in
  let words2 := set_of (split ctx2) in
  if negb (truthy_list words1) || negb (truthy_list words2) then Ok false
  else
    let overlap := inter_size words1 words2 in
    let total := union_size words1 words2 in
    similarity <-
      (if (0 <? total)%nat
       then truediv (Z.of_nat overlap) (Z.of_nat total)
       else Ok 0%Q) ;;
    Ok (Qle_bool threshold similarity).

Definition predict_from_context (self : t) (context : string)
  : result (option string) :=
  let context_lower := lower context in
  similar_actions <-
    for_each (Dict.items (action_contexts self))
      (fun acc entry =>
         for_each (snd entry)
           (fun acc ctx =>
              similar <- contexts_similar context_lower (lower ctx) ;;
              if similar then Ok (acc ++ [fst entry]) else Ok acc)
           acc)
      [] ;;
  if truthy_list similar_actions then
    top <- index (Counter.most_common1 (Counter.of_list similar_actions))
             0 ;;
    Ok (Some (fst top))
  else Ok None.

Definition explain_prediction (strat act : string) (conf : Q) : string :=
  if strat =? "sequence" then
    "Based on your typical workflow, you usually do '" ++ act ++ "' next."
  else if strat =? "context" then
    "In similar situations, you've done '" ++ act ++ "' before."
  else "Not enough historical data for a confident prediction.".

Definition candidate : Type := (string * string * Q)%type.

(** The list [predictions] as it stands before the best one is chosen. *)
Definition candidates (self : t) (current_context : string)
    (recent_actions : option (list string)) : result (list candidate) :=
  predictions <-
    (if truthy_optlist recent_actions
        && (0 <? match recent_actions with
                 | Some l => length l
                 | None => 0
                 end)%nat
     then
       seq_prediction <- predict_from_sequences self recent_actions ;;
       match seq_prediction with
       | Some a =>
           if truthy_str a then Ok [("sequence", a, 7 # 10)] else Ok []
       | None => Ok []
       end
     else Ok []) ;;
  context_prediction <- predict_from_context self current_context ;;
  match context_prediction with
  | Some a =>
      if truthy_str a then Ok (predictions ++ [("context", a, 6 # 10)])
      else Ok predictions
  | None => Ok predictions
  end.

Definition no_prediction : Prediction :=
  {| action := None;
     confidence := 0;
     strategy := "none";
     reasoning := "Not enough data to make a prediction" |}.

Definition predict_next_action (self : t) (current_context : string)
    (recent_actions : option (list string)) : result Prediction :=
  predictions <- candidates self current_context recent_actions ;;
  if truthy_list predictions then
    best <- max_by (fun x : candidate => snd x) predictions ;;
    let '(strat, act, conf) := best in
    Ok {| action := Some act;
          confidence := conf;
          strategy := strat;
          reasoning := explain_prediction strat act conf |}
  else Ok no_prediction.

Definition get_success_rate (self : t) (act : string) : result (Q * t) :=
  let (stats, d) :=
    Dict.getitem_default zero_counts (action_success self) act in
  let self' :=
    {| sequences := sequences self;
       action_contexts := action_contexts self;
       action_success := d;
       time_patterns := time_patterns self |} in
  let total := (success stats + failure stats)%Z in
  if (total =? 0)%Z then Ok (1 # 2, self')
  else
    rate <- truediv (success stats) total ;;
    Ok (rate, self').

(** The document [save] hands to [json.dump]; a plain [dict] copy of a
    [defaultdict] has the same entries in the same order. *)
Record snapshot : Type := {
  snap_sequences : list (list string);
  snap_action_contexts : Dict.t (list string);
  snap_action_success : Dict.t counts;
  snap_time_patterns : Dict.t (list Z)
}.

Definition save (self : t) : snapshot :=
  {| snap_sequences := sequences self;
     snap_action_contexts := action_contexts self;
     snap_action_success := action_success self;
     snap_time_patterns := time_patterns self |}.

(** [get_best_time]; [self.time_patterns.get(action, [])] reads the
    dictionary without inserting. *)
Definition get_best_time (self : t) (act : string) : result Z :=
  let times :=
    match Dict.get (time_patterns self) act with
    | Some l => l
    | None => []
    end in
  if negb (truthy_list times) then Ok 12%Z
  else
    top <- index (Tally.most_common1 (Tally.of_list Z.eqb times)) 0 ;;
    Ok (fst top).

(** [dict(pairs)]. *)
Definition dict_of_pairs {V} (pairs : list (string * V)) : Dict.t V :=
  fold_left (fun d e => Dict.set d (fst e) (snd e)) pairs Dict.empty.

(** The dictionary [get_stats] returns. *)
Record stats : Type := {
  sequences_learned : nat;
  actions_observed : nat;
  total_observations : nat;
  most_common_actions : Dict.t nat
}.

(** [get_stats]; the comprehension under [most_common_actions] runs
    over the stored context strings of every action. *)
Definition get_stats (self : t) : stats :=
  {| sequences_learned := length (sequences self);
     actions_observed := length (action_contexts self);
     total_observations :=
       list_sum (map (fun e => length (snd e)) (action_contexts self));
     most_common_actions :=
       dict_of_pairs
         (Tally.most_common 5
            (Tally.of_list String.eqb
               (flat_map snd (action_contexts self)))) |}.

(** The document [json.load] returns; any of the four keys may be
    missing. *)
Record document : Type := {
  doc_sequences : option (list (list string));
  doc_action_contexts : option (Dict.t (list string));
  doc_action_success : option (Dict.t counts);
  doc_time_patterns : option (Dict.t (list Z))
}.

(** What [json.load] reads back from what [save] wrote. *)
Definition document_of (data : snapshot) : document :=
  {| doc_sequences := Some (snap_sequences data);
     doc_action_contexts := Some (snap_action_contexts data);
     doc_action_success := Some (snap_action_success data);
     doc_time_patterns := Some (snap_time_patterns data) |}.

Definition load (data : document) : t :=
  {| sequences :=
       match doc_sequences data with Some l => l | None => [] end;
     action_contexts :=
       match doc_action_contexts data with
       | Some d => d
       | None => Dict.empty
       end;
     action_success :=
       match doc_action_success data with
       | Some d => d
       | None => Dict.empty
       end;
     time_patterns :=
       match doc_time_patterns data with
       | Some d => d
       | None => Dict.empty
       end |}.

End PatternLearner.

(* ================================================================== *)
(** * The fragment of [re] the intent patterns use *)
(* ================================================================== *)

Module Re.

(** Literal characters, concatenation, alternation and [.{0,n}]; every
    pattern of the predictor starts with [(?i)], so characters are
    compared up to ASCII case. *)
Inductive regex : Type :=
| Eps
| Chr (c : ascii)
| Cat (r1 r2 : regex)
| Alt (r1 r2 : regex)
| AnyUpTo (n : nat).

Fixpoint lit (s : string) : regex :=
  match s with
  | EmptyString => Eps
  | String c s' => Cat (Chr c) (lit s')
  end.

(** [(w|w1|...|wn)]. *)
Fixpoint alts (w : string) (ws : list string) : regex :=
  match ws with
  | [] => lit w
  | w' :: ws' => Alt (lit w) (alts w' ws')
  end.

Definition newline : ascii := ascii_of_nat 10.

(** [.{0,n}] followed by [k]: the dot takes any character but a newline. *)
Fixpoint any_upto (n : nat) (s : string) (k : string -> bool) : bool :=
  k s
  || match n, s with
     | S n', String c s' =>
         negb (Ascii.eqb c newline) && any_upto n' s' k
     | _, _ => false
     end.

(** [r] matches a prefix of [s] and [k] accepts the rest. *)
Fixpoint matches_at (r : regex) (s : string) (k : string -> bool) : bool :=
  match r with
  | Eps => k s
  | Chr c =>
      match s with
      | String c' s' => Ascii.eqb (lower_ascii c) (lower_ascii c') && k s'
      | EmptyString => false
      end
  | Cat r1 r2 => matches_at r1 s (fun s' => matches_at r2 s' k)
  | Alt r1 r2 => matches_at r1 s k || matches_at r2 s k
  | AnyUpTo n => any_upto n s k
  end.

(** [re.search(r, s)] as a truth value: a match starts somewhere. *)
Fixpoint search (r : regex) (s : string) : bool :=
  matches_at r s (fun _ => true)
  || match s with
     | EmptyString => false
     | String _ s' => search r s'
     end.

End Re.

(* ================================================================== *)
(** * intent_predictor.py *)
(* ================================================================== *)

Module IntentPredictor.

Import Re.

(** [(a|...).{0,20}(b|...)] *)
Definition gap (a : string) (az : list string) (b : string)
    (bz : list string) : regex :=
  Cat (alts a az) (Cat (AnyUpTo 20) (alts b bz)).

(** [self.intent_patterns], in the order of the dictionary display. *)
Definition intent_patterns : list (regex * string) :=
  [ (gap "clean" ["process"; "transform"; "parse"]
         "data" ["csv"; "json"; "file"], "data_processing");
    (gap "load" ["read"; "import"]
         "data" ["file"; "csv"; "json"], "data_loading");
    (alts "analyze" ["visualize"; "plot"; "graph"], "data_analysis");
    (gap "call" ["request"; "fetch"; "get"]
         "api" ["endpoint"; "url"], "api_request");
    (gap "post" ["send"; "submit"] "to" ["data"; "api"], "api_post");
    (gap "create" ["write"; "save"] "file" ["document"], "file_creation");
    (gap "delete" ["remove"] "file" ["folder"], "file_deletion");
    (gap "move" ["copy"] "file" ["folder"], "file_manipulation");
    (gap "write" ["create"; "generate"]
         "function" ["class"; "code"], "code_generation");
    (gap "fix" ["debug"; "solve"] "bug" ["error"; "issue"], "debugging");
    (alts "refactor" ["optimize"; "improve"], "code_optimization");
    (alts "test" ["unit test"; "integration test"], "testing");
    (alts "validate" ["verify"; "check"], "validation");
    (alts "deploy" ["release"; "publish"], "deployment");
    (alts "build" ["compile"; "package"], "build");
    (alts "document" ["explain"; "comment"], "documentation");
    (alts "help" ["guide"; "tutorial"], "help_request") ].

(** [self.confidence_boosters]. *)
Definition confidence_boosters : Dict.t (list string) :=
  [ ("data_processing", ["pandas"; "numpy"; "clean"; "transform"]);
    ("api_request", ["requests"; "http"; "fetch"; "endpoint"]);
    ("code_generation", ["function"; "class"; "method"; "implement"]);
    ("testing", ["pytest"; "unittest"; "test"; "assert"]) ].

(** The loop of [match_patterns] over a list of rules. *)
Fixpoint match_rules (rules : list (regex * string)) (text : string)
  : option string * Q :=
  match rules with
  | [] => (None, 0)
  | (pattern, intent) :: rules' =>
      if search pattern text then (Some intent, 6 # 10)
      else match_rules rules' text
  end.

Definition match_patterns (text : string) : option string * Q :=
  match_rules intent_patterns text.

(** [sum(1 for keyword in keywords if keyword in text_lower)]. *)
Definition keyword_matches (keywords : list string) (text_lower : string)
  : nat :=
  length (filter (fun keyword => contains keyword text_lower) keywords).

(** The optional context dictionary; its values are lists of labels. *)
Definition context_t : Type := option (Dict.t (list string)).

Definition truthy_context (context : context_t) : bool :=
  match context with
  | Some d => truthy_list d
  | None => false
  end.

Definition recent_actions_of (context : context_t) : list string :=
  match context with
  | Some d =>
      match Dict.get d "recent_actions" with
      | Some l => l
      | None => []
      end
  | None => []
  end.

Definition boost_confidence (intent text : string) (base_confidence : Q)
    (context : context_t) : Q :=
  let confidence := base_confidence in
  let confidence :=
    match Dict.get confidence_boosters intent with
    | Some keywords =>
        let text_lower := lower text in
        let matches := keyword_matches keywords text_lower in
        confidence
        + Qmin (inject_Z (Z.of_nat matches) * (1 # 10)) (3 # 10)
    | None => confidence
    end in
  let confidence :=
    if truthy_context context then
      if mem intent (recent_actions_of context)
      then confidence + (1 # 10)
      else confidence
    else confidence in
  Qmin confidence 1.

Definition predict (text : string) (context : context_t) : string * Q :=
  let (matched_intent, base_confidence) := match_patterns text in
  match matched_intent with
  | Some intent =>
      if truthy_str intent
      then (intent, boost_confidence intent text base_confidence context)
      else ("unknown", 0)
  | None => ("unknown", 0)
  end.

(** The table [sequences] of [predict_next_action], keyed by tuples. *)
Definition sequences : list (list string * (string * Q)) :=
  [ (["data_loading"; "data_processing"], ("data_analysis", 8 # 10));
    (["data_analysis"; "data_visualization"], ("reporting", 7 # 10));
    (["code_generation"; "testing"], ("debugging", 6 # 10));
    (["debugging"; "testing"], ("deployment", 7 # 10));
    (["api_request"; "api_request"], ("api_request", 5 # 10)) ].

Definition continuations : Dict.t (string * Q) :=
  [ ("data_loading", ("data_processing", 6 # 10));
    ("code_generation", ("testing", 5 # 10));
    ("testing", ("debugging", 4 # 10)) ].

(** [table[key]] guarded by [key in table], for a tuple key. *)
Fixpoint lookup_tuple (key : list string)
    (table : list (list string * (string * Q))) : option (string * Q) :=
  match table with
  | [] => None
  | (k, v) :: table' =>
      if list_eq_dec string_dec k key then Some v
      else lookup_tuple key table'
  end.

(** [l[-2:]]. *)
Definition last_two {A} (l : list A) : list A := skipn (length l - 2) l.

Definition predict_next_action (action_sequence : list string)
  : result (string * Q) :=
  if negb (truthy_list action_sequence) then Ok ("unknown", 0)
  else
    match
      (if (2 <=? length action_sequence)%nat
       then lookup_tuple (last_two action_sequence) sequences
       else None)
    with
    | Some hit => Ok hit
    | None =>
        last_action <- index_last action_sequence ;;
        match Dict.get continuations last_action with
        | Some hit => Ok hit
        | None => Ok ("unknown", 0)
        end
    end.

End IntentPredictor.

(* ================================================================== *)
(** * The pattern cache of adaptive_engine.py *)
(* ================================================================== *)

Module AdaptiveEngine.

(** A [datetime] is a number of microseconds on the local clock, and a
    [timedelta] the difference of two of them. *)
Definition datetime : Type := Z.

(** [timedelta(seconds=s)]. *)
Definition seconds (s : Z) : Z := s * 1000000.

(** [delta.seconds]: the seconds field of the normalised
    (days, seconds, microseconds) triple, between 0 and 86399. *)
Definition timedelta_seconds (delta : Z) : Z :=
  (delta / 1000000) mod 86400.

(** [delta.total_seconds()], rounded down to whole seconds. *)
Definition timedelta_whole_seconds (delta : Z) : Z := delta / 1000000.

Definition cache_ttl : Z := 300.

Section Engine.

(** The dictionary [generate_prediction] builds; the cache stores and
    returns it without looking inside. *)
Variable Prediction : Type.

Record cache_entry : Type := {
  prediction : Prediction;
  timestamp : datetime
}.

(** The attributes [predict_intent] reads or writes: the cache and the
    counter [stats['predictions_made']]. The session, the action buffer
    and the other three counters are not touched by it. *)
Record t : Type := {
  pattern_cache : Dict.t cache_entry;
  predictions_made : Z
}.

Definition init : t :=
  {| pattern_cache := Dict.empty; predictions_made := 0 |}.

(** [f"{user_id}:{context[:50]}"] *)
Definition cache_key (context user_id : string) : string :=
  user_id ++ ":" ++ take 50 context.

(** The cache test at the head of [predict_intent], with the reading
    [now] of the clock. *)
Definition cache_lookup (self : t) (cache_key : string) (now : datetime)
  : option Prediction :=
  match Dict.get (pattern_cache self) cache_key with
  | Some cached =>
      if (timedelta_seconds (now - timestamp cached) <? cache_ttl)%Z
      then Some (prediction cached)
      else None
  | None => None
  end.

(** [predict_intent]. The clock is read at [now] for the cache test
    and at [now'] when the entry is written; [fresh] is what
    [recall_memories], [analyze_patterns] and [generate_prediction]
    produce for this call when the cache does not answer. *)
Definition predict_intent (self : t) (context user_id : string)
    (now : datetime) (fresh : Prediction) (now' : datetime)
  : Prediction * t :=
  let key := cache_key context user_id in
  match cache_lookup self key now with
  | Some p => (p, self)
  | None =>
      (fresh,
       {| pattern_cache :=
            Dict.set (pattern_cache self) key
              {| prediction := fresh; timestamp := now' |};
          predictions_made := predictions_made self + 1 |})
  end.

Definition clear_cache (self : t) : t :=
  {| pattern_cache := Dict.empty;
     predictions_made := predictions_made self |}.

End Engine.

Arguments prediction {Prediction} _.
Arguments timestamp {Prediction} _.
Arguments pattern_cache {Prediction} _.
Arguments predictions_made {Prediction} _.
Arguments init {Prediction}.
Arguments cache_lookup {Prediction} _ _ _.
Arguments predict_intent {Prediction} _ _ _ _ _ _.
Arguments clear_cache {Prediction} _.

(** ** Patterns in recalled memories *)

(** A value as the JSON decoder hands it over. *)
#[warnings="-register-all"] Inductive value : Type :=
| VNone
| VBool (b : bool)
| VNum (q : Q)
| VStr (s : string)
| VList (l : list value)
| VDict (d : list (string * value)).

(** A recalled memory is a dictionary of such values. *)
Definition memory : Type := Dict.t value.

(** [hash(v)] succeeds: lists and dictionaries cannot be hashed. *)
Definition hashable (v : value) : bool :=
  match v with
  | VList _ | VDict _ => false
  | _ => true
  end.

(** The number a number or a boolean compares as. *)
Definition as_number (v : value) : option Q :=
  match v with
  | VBool b => Some (if b then 1 else 0)
  | VNum q => Some q
  | _ => None
  end.

(** [a == b] on hashable values; [True == 1] and [1 == 1.0]. *)
Definition value_eqb (a b : value) : bool :=
  match a, b with
  | VNone, VNone => true
  | VStr s, VStr t => s =? t
  | _, _ =>
      match as_number a, as_number b with
      | Some x, Some y => Qeq_bool x y
      | _, _ => false
      end
  end.

(** Equality of tuples of values. *)
Fixpoint tuple_value_eqb (a b : list value) : bool :=
  match a, b with
  | [], [] => true
  | x :: a', y :: b' => value_eqb x y && tuple_value_eqb a' b'
  | _, _ => false
  end.

(** [v.get(key, default)]: only a dictionary has the method. *)
Definition value_get (v : value) (key : string) (dflt : value)
  : result value :=
  match v with
  | VDict d =>
      Ok match Dict.get d key with
         | Some x => x
         | None => dflt
         end
  | _ => Raise AttributeError
  end.

(** [Counter(xs)] on values and on tuples of values: counting hashes
    every element. *)
Definition counter_of_values (xs : list value) : result (Tally.t value) :=
  for_each xs
    (fun c x =>
       if hashable x then Ok (Tally.incr value_eqb c x)
       else Raise TypeError)
    [].

Definition counter_of_tuples (xs : list (list value))
  : result (Tally.t (list value)) :=
  for_each xs
    (fun c x =>
       if forallb hashable x then Ok (Tally.incr tuple_value_eqb c x)
       else Raise TypeError)
    [].

Definition tuple_eqb (a b : list string) : bool :=
  if list_eq_dec string_dec a b then true else false.

(** [detect_sequences]: the pairs of neighbours that occur more than
    once, in order of first occurrence. *)
Definition detect_sequences (actions : list string)
  : result (list (list string)) :=
  sequences <-
    for_each (seq 0 (length actions - 1))
      (fun acc i =>
         a <- index actions i ;;
         b <- index actions (i + 1) ;;
         Ok (acc ++ [[a; b]]))
      [] ;;
  let seq_counter := Tally.of_list tuple_eqb sequences in
  Ok (map fst (filter (fun e => (1 <? snd e)%nat) seq_counter)).

(** [detect_sequences] as [analyze_patterns] calls it, on the action
    values of the memories. *)
Definition detect_value_sequences (actions : list value)
  : result (list (list value)) :=
  sequences <-
    for_each (seq 0 (length actions - 1))
      (fun acc i =>
         a <- index actions i ;;
         b <- index actions (i + 1) ;;
         Ok (acc ++ [[a; b]]))
      [] ;;
  seq_counter <- counter_of_tuples sequences ;;
  Ok (map fst (filter (fun e => (1 <? snd e)%nat) seq_counter)).

(** The dictionary [analyze_patterns] returns. A missing
    [most_common_action] is [None], missing [contexts] the empty list,
    as [generate_prediction] reads them. *)
Record patterns : Type := {
  actions : Tally.t value;
  sequences : list (list value);
  confidence : Q;
  total_samples : nat;
  most_common_action : option value;
  contexts : list value
}.

(** The body of the loop over the memories, on the three lists it
    fills. *)
Definition read_memory
    (lists : list value * list value * list value) (m : memory)
  : result (list value * list value * list value) :=
  let '(acts, ctxs, stamps) := lists in
  let metadata :=
    match Dict.get m "metadata" with
    | Some v => v
    | None => VDict []
    end in
  a <- value_get metadata "action" (VStr "unknown") ;;
  let c :=
    match Dict.get m "content" with
    | Some v => v
    | None => VStr ""
    end in
  t <- value_get metadata "timestamp" (VStr "") ;;
  Ok (acts ++ [a], ctxs ++ [c], stamps ++ [t]).

Definition analyze_patterns (memories : list memory) : result patterns :=
  if negb (truthy_list memories) then
    Ok {| actions := [];
          sequences := [];
          confidence := 0;
          total_samples := 0;
          most_common_action := None;
          contexts := [] |}
  else
    lists <- for_each memories read_memory ([], [], []) ;;
    let '(acts, ctxs, _) := lists in
    action_counts <- counter_of_values acts ;;
    seqs <- (if (3 <=? length acts)%nat then detect_value_sequences acts
             else Ok []) ;;
    let most_common := Tally.most_common1 action_counts in
    conf <- (if truthy_list most_common
             then top <- index most_common 0 ;;
                  truediv (Z.of_nat (snd top)) (Z.of_nat (length acts))
             else Ok 0) ;;
    best <- (if truthy_list most_common
             then top <- index most_common 0 ;; Ok (Some (fst top))
             else Ok None) ;;
    Ok {| actions := action_counts;
          sequences := seqs;
          confidence := conf;
          total_samples := length memories;
          most_common_action := best;
          contexts := firstn 5 ctxs |}.

(** ** The recent-action buffer *)

(** [d.append(x)] on a [deque] with [maxlen]: the oldest elements make
    room. *)
Definition deque_append {A} (maxlen : nat) (d : list A) (x : A) : list A :=
  let d' := d ++ [x] in
  skipn (length d' - maxlen) d'.

Definition buffer_maxlen : nat := 20.

Section Observer.

(** An observed action, a dictionary the buffer stores as it is. *)
Variable Action : Type.

(** The attributes [observe_action] writes. *)
Record observer : Type := {
  action_buffer : list Action;
  interactions_tracked : Z
}.

(** [observe_action]; [has_session] is the truth of [self.session] and
    [posted] tells whether the request to the memory layer returned
    without raising. *)
Definition observe_action (self : observer) (action : Action)
    (has_session posted : bool) : observer :=
  {| action_buffer := deque_append buffer_maxlen (action_buffer self) action;
     interactions_tracked :=
       if has_session && posted
       then (interactions_tracked self + 1)%Z
       else interactions_tracked self |}.

End Observer.

Arguments action_buffer {Action} _.
Arguments interactions_tracked {Action} _.
Arguments observe_action {Action} _ _ _ _.

End AdaptiveEngine.

(* ================================================================== *)
(** * Reference functions and example states *)
(* ================================================================== *)

Module Reference.

Import PatternLearner.

(** The labels that stand directly after an occurrence of [last] in
    [sq], in order of occurrence. *)
Fixpoint followers (last : string) (sq : list string) : list string :=
  match sq with
  | a :: ((b :: _) as tl) =>
      if a =? last then b :: followers last tl else followers last tl
  | _ => []
  end.

(** Word-overlap similarity as a plain truth value. *)
Definition similar (ctx1 ctx2 : string) : bool :=
  let words1 := set_of (split ctx1) in
  let words2 := set_of (split ctx2) in
  truthy_list words1 && truthy_list words2
  && Qle_bool threshold
       (inject_Z (Z.of_nat (inter_size words1 words2))
        / inject_Z (Z.of_nat (union_size words1 words2))).

(** One vote for [fst entry] per stored sample similar to the query. *)
Definition votes (query : string) (entry : string * list string)
  : list string :=
  map (fun _ => fst entry)
    (filter (fun ctx => similar query (lower ctx)) (snd entry)).

(** The most common label of a list, ties to the earliest. *)
Definition most_common (xs : list string) : option string :=
  match Counter.most_common1 (Counter.of_list xs) with
  | e :: _ => Some (fst e)
  | [] => None
  end.

(** [recent_actions[-1] if recent_actions else None]. *)
Definition last_action (recent_actions : option (list string))
  : option string :=
  match recent_actions with
  | Some (x :: l) => Some (last l x)
  | _ => None
  end.

(** The counters recorded for an action, zero when it has no entry. *)
Definition recorded (self : PatternLearner.t) (act : string) : counts :=
  match Dict.get (action_success self) act with
  | Some c => c
  | None => zero_counts
  end.

(** Empty or made of whitespace only. *)
Fixpoint blank (s : string) : bool :=
  match s with
  | EmptyString => true
  | String c s' => is_space c && blank s'
  end.

(** How many booster keywords of [intent] occur in the lowered text. *)
Definition booster_hits (intent text : string) : nat :=
  match Dict.get IntentPredictor.confidence_boosters intent with
  | Some keywords => IntentPredictor.keyword_matches keywords (lower text)
  | None => 0
  end.

(** What a counter holds for a key that occurs [n] times. *)
Definition held (n : nat) : option nat :=
  match n with
  | O => None
  | S _ => Some n
  end.

(** The pairs of neighbours of a list, as two-element lists. *)
Fixpoint adjacent (l : list string) : list (list string) :=
  match l with
  | a :: ((b :: _) as tl) => [a; b] :: adjacent tl
  | _ => []
  end.

(** The calls that change a learner. *)
Inductive event : Type :=
| Observe (act context : string) (ok : bool) (hour : Z)
| ObserveSequence (actions : list string)
| SuccessRate (act : string).

Definition step (self : PatternLearner.t) (e : event) : PatternLearner.t :=
  match e with
  | Observe act context ok hour => observe self act context ok hour
  | ObserveSequence actions => observe_sequence self actions
  | SuccessRate act =>
      match get_success_rate self act with
      | Ok (_, self') => self'
      | Raise _ => self
      end
  end.

(** The learner after a history of calls on a fresh one. *)
Definition run (history : list event) : PatternLearner.t :=
  fold_left step history PatternLearner.init.

Definition is_observe (e : event) : bool :=
  match e with
  | Observe _ _ _ _ => true
  | _ => false
  end.

Definition observes_action (act : string) (e : event) : bool :=
  match e with
  | Observe a _ _ _ => a =? act
  | _ => false
  end.

(** One more success or one more failure. *)
Definition bump (ok : bool) (st : counts) : counts :=
  if ok
  then {| success := success st + 1; failure := failure st |}
  else {| success := success st; failure := failure st + 1 |}.

(** The contexts and the hours stored for an action, none when it has
    no entry. *)
Definition samples (self : PatternLearner.t) (act : string) : list string :=
  match Dict.get (action_contexts self) act with
  | Some l => l
  | None => []
  end.

Definition hours (self : PatternLearner.t) (act : string) : list Z :=
  match Dict.get (time_patterns self) act with
  | Some l => l
  | None => []
  end.

(** What a history says about one action: the contexts and hours of
    its observations in order, and how many of them had the outcome
    [ok]. *)
Fixpoint observed_contexts (act : string) (history : list event)
  : list string :=
  match history with
  | [] => []
  | Observe a context _ _ :: history' =>
      if a =? act then context :: observed_contexts act history'
      else observed_contexts act history'
  | _ :: history' => observed_contexts act history'
  end.

Fixpoint observed_hours (act : string) (history : list event) : list Z :=
  match history with
  | [] => []
  | Observe a _ _ hour :: history' =>
      if a =? act then hour :: observed_hours act history'
      else observed_hours act history'
  | _ :: history' => observed_hours act history'
  end.

Fixpoint outcomes (act : string) (ok : bool) (history : list event) : Z :=
  match history with
  | [] => 0
  | Observe a _ ok' _ :: history' =>
      if (a =? act) && Bool.eqb ok ok'
      then outcomes act ok history' + 1
      else outcomes act ok history'
  | _ :: history' => outcomes act ok history'
  end.

(** The sequences of a history that [observe_sequence] keeps. *)
Fixpoint accepted_sequences (history : list event) : list (list string) :=
  match history with
  | [] => []
  | ObserveSequence actions :: history' =>
      if (2 <=? length actions)%nat
      then actions :: accepted_sequences history'
      else accepted_sequences history'
  | _ :: history' => accepted_sequences history'
  end.

(** [a] stands somewhere before an occurrence of [b] in [l]. *)
Definition precedes {A} (a b : A) (l : list A) : Prop :=
  exists l1 l2, l = l1 ++ a :: l2 /\ In b l2.

(** The metadata of a memory is missing or a dictionary. *)
Definition metadata_ok (m : AdaptiveEngine.memory) : bool :=
  match Dict.get m "metadata" with
  | None => true
  | Some (AdaptiveEngine.VDict _) => true
  | Some _ => false
  end.

(** The action label of a memory whose metadata is missing or a
    dictionary and whose action is missing or a string; ['unknown']
    stands for a missing one. *)
Definition memory_action (m : AdaptiveEngine.memory) : option string :=
  match Dict.get m "metadata" with
  | None => Some "unknown"
  | Some (AdaptiveEngine.VDict d) =>
      match Dict.get d "action" with
      | None => Some "unknown"
      | Some (AdaptiveEngine.VStr a) => Some a
      | Some _ => None
      end
  | Some _ => None
  end.

(** The counter of string labels, seen as a counter of values. *)
Definition lift_counter (c : Tally.t string) : Tally.t AdaptiveEngine.value :=
  map (fun e => (AdaptiveEngine.VStr (fst e), snd e)) c.

(** The pairs of neighbours of a list of any elements. *)
Fixpoint neighbours {A} (l : list A) : list (list A) :=
  match l with
  | a :: ((b :: _) as tl) => [a; b] :: neighbours tl
  | _ => []
  end.

(** Every character is an ASCII character. *)
Fixpoint is_ascii (s : string) : bool :=
  match s with
  | EmptyString => true
  | String c s' => (nat_of_ascii c <? 128)%nat && is_ascii s'
  end.

(** A run of [observe_action] calls, each with its action, the truth of
    the session and the outcome of the request. *)
Definition observe_actions {Action : Type}
    (self : AdaptiveEngine.observer Action)
    (calls : list (Action * (bool * bool))) : AdaptiveEngine.observer Action :=
  fold_left
    (fun st call =>
       AdaptiveEngine.observe_action st (fst call)
         (fst (snd call)) (snd (snd call)))
    calls self.

End Reference.

Module Scenario.

Import PatternLearner.

Definition workflow_report : list string :=
  ["data_loading"; "data_processing"; "data_analysis"; "reporting"].

Definition workflow_visual : list string :=
  ["data_loading"; "data_processing"; "data_analysis"; "visualization"].

(** The report workflow seen twice and the visualisation workflow once. *)
Definition trained : t :=
  observe_sequence
    (observe_sequence (observe_sequence init workflow_report)
       workflow_report)
    workflow_visual.

(** One workflow and one observed action with its context. *)
Definition both_sources : t :=
  observe (observe_sequence init ["data_loading"; "data_processing"])
    "reporting" "weekly sales report" true 9.

(** A workflow whose second step carries the empty label, the default
    action of the learn-pattern endpoint. *)
Definition empty_follower : t :=
  observe (observe_sequence init ["data_loading"; ""])
    "reporting" "weekly sales report" true 9.

(** A stored sample that is itself only whitespace. *)
Definition blank_sample : t := observe init "reporting" "   " true 9.

(** An action seen three times, twice with success. *)
Definition mixed_outcomes : t :=
  observe (observe (observe init "testing" "run unit tests" true 10)
             "testing" "run unit tests" false 11)
    "testing" "run integration tests" true 10.

(** Two workflows that continue the same action differently. *)
Definition tied : t :=
  observe_sequence (observe_sequence init ["build"; "testing"; "build"])
    ["build"; "deployment"].

End Scenario.

(* ================================================================== *)
(** * Facts about the runtime fragments *)
(* ================================================================== *)

Import PatternLearner Reference.

Lemma for_each_pure {A S} (f : S -> A -> S) (body : S -> A -> result S)
    (xs : list A) :
  (forall s x, In x xs -> body s x = Ok (f s x)) ->
  forall s, for_each xs body s = Ok (fold_left f xs s).
Proof.
  induction xs as [|x xs IH]; intros Hbody s; simpl.
  - reflexivity.
  - rewrite Hbody by (left; reflexivity). simpl.
    apply IH. intros s' y Hy. apply Hbody. right. exact Hy.
Qed.

Lemma fold_left_app_flat_map {A B} (f : A -> list B) (xs : list A) :
  forall acc, fold_left (fun acc x => acc ++ f x) xs acc = acc ++ flat_map f xs.
Proof.
  induction xs as [|x xs IH]; intros acc; simpl.
  - now rewrite app_nil_r.
  - rewrite IH. now rewrite app_assoc.
Qed.

Lemma last_default_irrelevant {A} (l : list A) :
  forall z d d', last (z :: l) d = last (z :: l) d'.
Proof.
  induction l as [|y l IH]; intros z d d'.
  - reflexivity.
  - change (last (y :: l) d = last (y :: l) d'). apply IH.
Qed.

Lemma nth_error_last {A} (l : list A) :
  forall x, nth_error (x :: l) (length l) = Some (last l x).
Proof.
  induction l as [|y l IH]; intros x.
  - reflexivity.
  - change (nth_error (y :: l) (length l) = Some (last (y :: l) x)).
    rewrite IH. f_equal. destruct l as [|z l]; [reflexivity|].
    change (last (z :: l) y = last (z :: l) x).
    apply last_default_irrelevant.
Qed.

Lemma index_last_ok {A} (x : A) (l : list A) :
  index_last (x :: l) = Ok (last l x).
Proof.
  unfold index_last, index.
  replace (length (x :: l) - 1)%nat with (length l) by (simpl; lia).
  now rewrite nth_error_last.
Qed.

Lemma index_middle {A} (pre : list A) (a b : A) (tl : list A) :
  index (pre ++ a :: b :: tl) (length pre + 1) = Ok b.
Proof.
  unfold index.
  rewrite nth_error_app2 by lia.
  replace (length pre + 1 - length pre)%nat with 1%nat by lia.
  reflexivity.
Qed.

Lemma dict_set_nonempty {V} (d : Dict.t V) (k : string) (v : V) :
  Dict.set d k v <> [].
Proof.
  destruct d as [|[k' v'] d]; simpl.
  - discriminate.
  - destruct (k' =? k); discriminate.
Qed.

Lemma dict_get_set_same {V} (d : Dict.t V) (k : string) (v : V) :
  Dict.get (Dict.set d k v) k = Some v.
Proof.
  induction d as [|[k' v'] d IH]; simpl.
  - now rewrite String.eqb_refl.
  - destruct (k' =? k) eqn:E; simpl; rewrite E; [reflexivity | exact IH].
Qed.

Lemma dict_set_fresh {V} (d : Dict.t V) (k : string) (v : V) :
  Dict.get d k = None -> Dict.set d k v = d ++ [(k, v)].
Proof.
  induction d as [|[k' v'] d IH]; simpl; intros H.
  - reflexivity.
  - destruct (k' =? k); [discriminate | now rewrite IH].
Qed.

Lemma counter_incr_nonempty (c : Counter.t) (x : string) :
  Counter.incr c x <> [].
Proof.
  unfold Counter.incr. destruct (Dict.get c x); apply dict_set_nonempty.
Qed.

Lemma counter_of_list_nonempty (x : string) (xs : list string) :
  Counter.of_list (x :: xs) <> [].
Proof.
  unfold Counter.of_list. simpl.
  generalize (counter_incr_nonempty Dict.empty x).
  generalize (Counter.incr Dict.empty x).
  induction xs as [|y ys IH]; intros c Hc; simpl.
  - exact Hc.
  - apply IH. apply counter_incr_nonempty.
Qed.

(** The counter of a non-empty list has a most common entry. *)
Lemma most_common1_single (xs : list string) :
  truthy_list xs = true ->
  exists e, Counter.most_common1 (Counter.of_list xs) = [e].
Proof.
  destruct xs as [|x xs]; [discriminate|]. intros _.
  pose proof (counter_of_list_nonempty x xs) as Hne.
  destruct (Counter.of_list (x :: xs)) as [|e c]; [congruence|].
  simpl. eexists. reflexivity.
Qed.

Lemma choose_most_common (xs : list string) :
  (if truthy_list xs
   then top <- index (Counter.most_common1 (Counter.of_list xs)) 0 ;;
        Ok (Some (fst top))
   else Ok None)
  = Ok (most_common xs).
Proof.
  destruct (truthy_list xs) eqn:E.
  - destruct (most_common1_single xs E) as [e He].
    unfold most_common. rewrite He. reflexivity.
  - destruct xs; [reflexivity | discriminate].
Qed.

(* ================================================================== *)
(** * The two prediction strategies never raise *)
(* ================================================================== *)

Section Strategies.

Variable self : PatternLearner.t.

(** The inner loop reads [sq[i + 1]] only at positions of [sq[:-1]],
    so the index is always in range. *)
Lemma follower_loop (last : string) (rest : list string) :
  forall (pre acc : list string),
    for_each
      (combine (seq (length pre) (length (removelast rest)))
         (removelast rest))
      (follower_step last (pre ++ rest)) acc
    = Ok (acc ++ followers last rest).
Proof.
  induction rest as [|a rest IH]; intros pre acc.
  - simpl. now rewrite app_nil_r.
  - destruct rest as [|b tl].
    + simpl. now rewrite app_nil_r.
    + change (removelast (a :: b :: tl)) with (a :: removelast (b :: tl)).
      cbn [length seq combine for_each].
      unfold follower_step at 1.
      change (followers last (a :: b :: tl))
        with (if a =? last then b :: followers last (b :: tl)
              else followers last (b :: tl)).
      specialize (IH (pre ++ [a])).
      rewrite length_app in IH. simpl length in IH.
      rewrite Nat.add_1_r in IH.
      rewrite <- app_assoc in IH. simpl app in IH.
      destruct (a =? last).
      * rewrite index_middle. cbn [bind]. rewrite IH.
        now rewrite <- app_assoc.
      * cbn [bind]. apply IH.
Qed.

Lemma follower_scan (last : string) :
  for_each (sequences self)
    (fun acc sq =>
       for_each (enumerate (slice_init sq)) (follower_step last sq) acc)
    []
  = Ok (flat_map (followers last) (sequences self)).
Proof.
  rewrite (for_each_pure (fun acc sq => acc ++ followers last sq)).
  - now rewrite fold_left_app_flat_map.
  - intros acc sq _. apply (follower_loop last sq [] acc).
Qed.

(** [predict_from_sequences] returns, without raising, the most common
    follower of the last recent action. *)
Lemma predict_from_sequences_spec (recent_actions : option (list string)) :
  predict_from_sequences self recent_actions
  = Ok match last_action recent_actions with
       | Some last =>
           if truthy_str last
           then most_common (flat_map (followers last) (sequences self))
           else None
       | None => None
       end.
Proof.
  unfold predict_from_sequences, last_action.
  destruct recent_actions as [[|x l]|]; try reflexivity.
  cbn [truthy_list]. rewrite index_last_ok. cbn [bind].
  destruct (truthy_str (last l x)); cbn [negb]; [|reflexivity].
  rewrite follower_scan. cbn [bind].
  apply choose_most_common.
Qed.

Lemma contexts_similar_spec (ctx1 ctx2 : string) :
  contexts_similar ctx1 ctx2 = Ok (similar ctx1 ctx2).
Proof.
  unfold contexts_similar, similar.
  destruct (set_of (split ctx1)) as [|w1 ws1]; [reflexivity|].
  destruct (set_of (split ctx2)) as [|w2 ws2]; [reflexivity|].
  cbn [truthy_list negb orb andb].
  set (total := union_size (w1 :: ws1) (w2 :: ws2)).
  assert (Hpos : (0 < total)%nat) by (unfold total, union_size; simpl; lia).
  apply Nat.ltb_lt in Hpos as Hb. rewrite Hb.
  unfold truediv.
  destruct (Z.eqb_spec (Z.of_nat total) 0) as [E|_]; [lia|].
  reflexivity.
Qed.

Lemma fold_left_votes (p : string -> bool) (a : string) (l : list string) :
  forall acc,
    fold_left (fun acc ctx => if p ctx then acc ++ [a] else acc) l acc
    = acc ++ map (fun _ => a) (filter p l).
Proof.
  induction l as [|c l IH]; intros acc; simpl.
  - now rewrite app_nil_r.
  - rewrite IH. destruct (p c); [|reflexivity].
    simpl. now rewrite <- app_assoc.
Qed.

(** [predict_from_context] returns, without raising, the action with
    the most stored samples similar to the lowered query. *)
Lemma predict_from_context_spec (context : string) :
  predict_from_context self context
  = Ok (most_common
          (flat_map (votes (lower context)) (action_contexts self))).
Proof.
  unfold predict_from_context, Dict.items.
  rewrite (for_each_pure
             (fun acc entry => acc ++ votes (lower context) entry)).
  - rewrite fold_left_app_flat_map. cbn [bind app].
    apply choose_most_common.
  - intros acc entry _.
    rewrite (for_each_pure
               (fun acc ctx =>
                  if similar (lower context) (lower ctx)
                  then acc ++ [fst entry] else acc)).
    + now rewrite fold_left_votes.
    + intros acc' ctx _. rewrite contexts_similar_spec. cbn [bind].
      now destruct (similar (lower context) (lower ctx)).
Qed.

End Strategies.

(* ================================================================== *)
(** * Blank query contexts *)
(* ================================================================== *)

Lemma is_space_lower_ascii (c : ascii) :
  is_space (lower_ascii c) = is_space c.
Proof.
  destruct c as [[] [] [] [] [] [] [] []]; reflexivity.
Qed.

Lemma blank_lower (s : string) : blank (lower s) = blank s.
Proof.
  induction s as [|c s IH]; simpl.
  - reflexivity.
  - now rewrite is_space_lower_ascii, IH.
Qed.

Lemma split_blank (s : string) : blank s = true -> split s = [].
Proof.
  unfold split. induction s as [|c s IH]; simpl; intros H.
  - reflexivity.
  - apply andb_true_iff in H as [Hc Hs]. rewrite Hc. simpl. now apply IH.
Qed.

Lemma similar_no_words_l (ctx1 ctx2 : string) :
  split ctx1 = [] -> similar ctx1 ctx2 = false.
Proof.
  intros H. unfold similar. now rewrite H.
Qed.

Lemma similar_no_words_r (ctx1 ctx2 : string) :
  split ctx2 = [] -> similar ctx1 ctx2 = false.
Proof.
  intros H. unfold similar. rewrite H. simpl.
  now destruct (truthy_list (set_of (split ctx1))).
Qed.

Lemma votes_no_words (query : string) (entry : string * list string) :
  split query = [] -> votes query entry = [].
Proof.
  intros H. unfold votes.
  induction (snd entry) as [|c l IH]; simpl.
  - reflexivity.
  - now rewrite similar_no_words_l.
Qed.

Lemma flat_map_all_nil {A B} (f : A -> list B) (l : list A) :
  (forall x, f x = []) -> flat_map f l = [].
Proof.
  intros H. induction l as [|x l IH]; simpl.
  - reflexivity.
  - now rewrite H, IH.
Qed.

Lemma predict_from_context_blank_none (self : PatternLearner.t)
    (context : string) :
  blank context = true -> predict_from_context self context = Ok None.
Proof.
  intros H. rewrite predict_from_context_spec.
  rewrite flat_map_all_nil; [reflexivity|].
  intros entry. apply votes_no_words, split_blank.
  now rewrite blank_lower.
Qed.

(** C10: on an empty or whitespace-only query, [predict_from_context]
    returns [None] whatever samples are stored, because
    [contexts_similar] answers [False] as soon as either side has no
    word; a stored sample equal to the query is no exception. *)
Theorem predict_from_context_blank_query (self : PatternLearner.t)
    (context : string) :
  blank context = true ->
  predict_from_context self context = Ok None
  /\ (forall stored, contexts_similar (lower context) (lower stored) = Ok false)
  /\ contexts_similar (lower context) (lower context) = Ok false
  /\ (forall ctx1 ctx2,
        split ctx1 = [] \/ split ctx2 = [] ->
        contexts_similar ctx1 ctx2 = Ok false).
Proof.
  intros H.
  assert (Hsplit : split (lower context) = [])
    by (apply split_blank; now rewrite blank_lower).
  repeat split.
  - now apply predict_from_context_blank_none.
  - intros stored. rewrite contexts_similar_spec.
    now rewrite similar_no_words_l.
  - rewrite contexts_similar_spec. now rewrite similar_no_words_l.
  - intros ctx1 ctx2 [H1|H2]; rewrite contexts_similar_spec.
    + now rewrite similar_no_words_l.
    + now rewrite similar_no_words_r.
Qed.

Lemma predict_from_context_blank_query_witness :
  Dict.get (action_contexts Scenario.blank_sample) "reporting"
  = Some ["   "]
  /\ predict_from_context Scenario.blank_sample "   " = Ok None.
Proof.
  split.
  - reflexivity.
  - apply (predict_from_context_blank_query Scenario.blank_sample "   ").
    reflexivity.
Defined.

(* ================================================================== *)
(** * Observing sequences *)
(* ================================================================== *)

(** C5: a list of fewer than two actions leaves the learner as it was;
    a list of two or more is appended, as it is, to the end of the
    sequence log, and the contexts, the success counters and the hour
    samples stay as they were. *)
Theorem observe_sequence_frame (self : PatternLearner.t)
    (actions : list string) :
  ((length actions < 2)%nat -> observe_sequence self actions = self)
  /\ ((2 <= length actions)%nat ->
      sequences (observe_sequence self actions)
      = sequences self ++ [actions]
      /\ action_contexts (observe_sequence self actions)
         = action_contexts self
      /\ action_success (observe_sequence self actions)
         = action_success self
      /\ time_patterns (observe_sequence self actions)
         = time_patterns self).
Proof.
  unfold observe_sequence.
  destruct (Nat.leb_spec 2 (length actions)) as [Hge|Hlt]; split; intros H.
  - lia.
  - repeat split.
  - reflexivity.
  - lia.
Qed.

Lemma observe_sequence_frame_witness :
  observe_sequence Scenario.mixed_outcomes ["testing"]
  = Scenario.mixed_outcomes
  /\ sequences (observe_sequence Scenario.trained ["build"; "deployment"])
     = sequences Scenario.trained ++ [["build"; "deployment"]].
Proof.
  split.
  - apply (observe_sequence_frame Scenario.mixed_outcomes ["testing"]).
    simpl. lia.
  - apply (observe_sequence_frame Scenario.trained ["build"; "deployment"]).
    simpl. lia.
Defined.

(* ================================================================== *)
(** * Choosing between the strategies *)
(* ================================================================== *)

(** C1: after the report workflow was observed twice and the
    visualisation workflow once on a fresh learner,
    [predict_next_action] with the empty context and the recent actions
    [data_loading, data_processing] predicts ['data_analysis'] by the
    ['sequence'] strategy with confidence 0.7. *)
Theorem trained_workflow_predicts_data_analysis :
  Scenario.trained
  = observe_sequence
      (observe_sequence
         (observe_sequence PatternLearner.init
            ["data_loading"; "data_processing"; "data_analysis"; "reporting"])
         ["data_loading"; "data_processing"; "data_analysis"; "reporting"])
      ["data_loading"; "data_processing"; "data_analysis"; "visualization"]
  /\ exists p,
       predict_next_action Scenario.trained ""
         (Some ["data_loading"; "data_processing"]) = Ok p
       /\ action p = Some "data_analysis"
       /\ strategy p = "sequence"
       /\ confidence p = 7 # 10.
Proof.
  split; [reflexivity|].
  eexists. split; [vm_compute; reflexivity|].
  repeat split.
Qed.

Lemma sequence_result_needs_recent (self : PatternLearner.t)
    (recent : option (list string)) (a : string) :
  predict_from_sequences self recent = Ok (Some a) ->
  truthy_optlist recent = true
  /\ (0 <? match recent with Some l => length l | None => 0 end)%nat = true.
Proof.
  destruct recent as [[|x l]|]; intros H.
  - discriminate H.
  - split; reflexivity.
  - discriminate H.
Qed.

Lemma truthy_str_nonempty (a : string) : a <> "" -> truthy_str a = true.
Proof.
  intros H. unfold truthy_str.
  destruct (String.eqb_spec a ""); [contradiction | reflexivity].
Qed.

(** C4 (amended): whenever the sequence strategy yields a non-empty
    action and the context strategy yields an action too,
    [predict_next_action] returns the sequence candidate with its fixed
    confidence 0.7, whatever the data behind the two candidates. *)
Theorem sequence_candidate_preferred (self : PatternLearner.t)
    (context : string) (recent : option (list string)) (a b : string) :
  predict_from_sequences self recent = Ok (Some a) ->
  a <> "" ->
  predict_from_context self context = Ok (Some b) ->
  predict_next_action self context recent
  = Ok {| action := Some a;
          confidence := 7 # 10;
          strategy := "sequence";
          reasoning :=
            "Based on your typical workflow, you usually do '" ++ a
            ++ "' next." |}.
Proof.
  intros Hseq Ha Hctx.
  destruct (sequence_result_needs_recent self recent a Hseq) as [Ht Hl].
  unfold predict_next_action, candidates.
  rewrite Ht, Hl, Hseq. cbn [andb bind].
  rewrite (truthy_str_nonempty a Ha). cbn [bind].
  rewrite Hctx. cbn [bind].
  destruct (truthy_str b); reflexivity.
Qed.

Lemma sequence_candidate_preferred_witness :
  predict_next_action Scenario.both_sources "weekly sales report"
    (Some ["data_loading"])
  = Ok {| action := Some "data_processing";
          confidence := 7 # 10;
          strategy := "sequence";
          reasoning :=
            "Based on your typical workflow, you usually do 'data_processing' next." |}.
Proof.
  apply (sequence_candidate_preferred Scenario.both_sources
           "weekly sales report" (Some ["data_loading"])
           "data_processing" "reporting").
  - vm_compute. reflexivity.
  - discriminate.
  - vm_compute. reflexivity.
Defined.

(** Counterexample to C4 as the specification words it: the sequence
    strategy can yield the empty label, which is not [None] but counts
    as false, and then the context candidate is returned with
    confidence 0.6. *)
Lemma empty_sequence_label_is_dropped :
  predict_from_sequences Scenario.empty_follower (Some ["data_loading"])
  = Ok (Some "")
  /\ predict_from_context Scenario.empty_follower "weekly sales report"
     = Ok (Some "reporting")
  /\ predict_next_action Scenario.empty_follower "weekly sales report"
       (Some ["data_loading"])
     = Ok {| action := Some "reporting";
             confidence := 6 # 10;
             strategy := "context";
             reasoning :=
               "In similar situations, you've done 'reporting' before." |}.
Proof.
  repeat split; vm_compute; reflexivity.
Qed.

Lemma max_by_cons_ok {A} (key : A -> Q) (x : A) (l : list A) :
  exists best, max_by key (x :: l) = Ok best.
Proof.
  simpl. eexists. reflexivity.
Qed.

Lemma candidates_ok (self : PatternLearner.t) (context : string)
    (recent : option (list string)) :
  exists l, candidates self context recent = Ok l.
Proof.
  unfold candidates.
  rewrite predict_from_sequences_spec, predict_from_context_spec.
  destruct (truthy_optlist recent && _); cbn [bind].
  - destruct (match last_action recent with Some _ => _ | None => _ end)
      as [a|]; [destruct (truthy_str a)|]; cbn [bind];
      (destruct (most_common _) as [b|]; [destruct (truthy_str b)|]);
      eexists; reflexivity.
  - destruct (most_common _) as [b|]; [destruct (truthy_str b)|];
      eexists; reflexivity.
Qed.

Lemma predict_next_action_ok (self : PatternLearner.t) (context : string)
    (recent : option (list string)) :
  exists p, predict_next_action self context recent = Ok p.
Proof.
  unfold predict_next_action.
  destruct (candidates_ok self context recent) as [l Hl]. rewrite Hl.
  cbn [bind]. destruct l as [|x l]; cbn [truthy_list].
  - eexists. reflexivity.
  - destruct (max_by_cons_ok (fun c : candidate => snd c) x l) as [best Hb].
    rewrite Hb. cbn [bind]. destruct best as [[strat act] conf].
    eexists. reflexivity.
Qed.

Lemma no_candidates_no_prediction (self : PatternLearner.t)
    (context : string) (recent : option (list string))
    (o1 o2 : option string) :
  predict_from_sequences self recent = Ok o1 -> truthy_opt o1 = false ->
  predict_from_context self context = Ok o2 -> truthy_opt o2 = false ->
  predict_next_action self context recent = Ok no_prediction.
Proof.
  intros H1 T1 H2 T2.
  unfold predict_next_action, candidates. rewrite H1, H2.
  destruct (truthy_optlist recent && _); cbn [bind].
  - destruct o1 as [a|]; [simpl in T1; rewrite T1|]; cbn [bind];
      (destruct o2 as [b|]; [simpl in T2; rewrite T2|]); reflexivity.
  - destruct o2 as [b|]; [simpl in T2; rewrite T2|]; reflexivity.
Qed.

(** C8: [predict_next_action] returns a prediction on every learner
    state, context and recent-actions argument and never raises; when
    neither strategy yields a candidate, in particular on empty recent
    actions with the empty context, the prediction is the ['none']
    strategy with action [None], confidence 0.0 and the fixed text
    ['Not enough data to make a prediction']. *)
Theorem predict_next_action_never_raises (self : PatternLearner.t)
    (context : string) (recent : option (list string)) :
  (exists p, predict_next_action self context recent = Ok p)
  /\ (forall o1 o2,
        predict_from_sequences self recent = Ok o1 ->
        truthy_opt o1 = false ->
        predict_from_context self context = Ok o2 ->
        truthy_opt o2 = false ->
        predict_next_action self context recent
        = Ok {| action := None;
                confidence := 0;
                strategy := "none";
                reasoning := "Not enough data to make a prediction" |})
  /\ predict_next_action self "" (Some []) = Ok no_prediction
  /\ predict_next_action self "" None = Ok no_prediction.
Proof.
  split; [apply predict_next_action_ok|].
  split; [intros o1 o2; apply no_candidates_no_prediction|].
  split.
  - apply (no_candidates_no_prediction self "" (Some []) None None);
      try reflexivity.
    now apply predict_from_context_blank_none.
  - apply (no_candidates_no_prediction self "" None None None);
      try reflexivity.
    now apply predict_from_context_blank_none.
Qed.

Lemma predict_next_action_never_raises_witness :
  predict_next_action Scenario.trained "weekly sales report"
    (Some ["deployment"])
  = Ok no_prediction.
Proof.
  apply (predict_next_action_never_raises Scenario.trained
           "weekly sales report" (Some ["deployment"]))
    with (o1 := None) (o2 := None); vm_compute; reflexivity.
Defined.

(* ================================================================== *)
(** * Success rates *)
(* ================================================================== *)

Lemma getitem_default_value {V} (dflt : V) (d : Dict.t V) (k : string) :
  fst (Dict.getitem_default dflt d k)
  = match Dict.get d k with Some v => v | None => dflt end.
Proof.
  unfold Dict.getitem_default. now destruct (Dict.get d k).
Qed.

(** C7: [get_success_rate] returns successes / (successes + failures)
    over the counters recorded for the action, and exactly 0.5, with no
    division by zero, when both counters are zero. *)
Theorem get_success_rate_value (self : PatternLearner.t) (act : string) :
  exists rate self',
    get_success_rate self act = Ok (rate, self')
    /\ ((success (recorded self act) + failure (recorded self act) <> 0)%Z ->
        rate == inject_Z (success (recorded self act))
                / inject_Z (success (recorded self act)
                            + failure (recorded self act)))
    /\ (success (recorded self act) = 0%Z ->
        failure (recorded self act) = 0%Z ->
        rate = 1 # 2).
Proof.
  unfold get_success_rate, recorded.
  pose proof (getitem_default_value zero_counts (action_success self) act)
    as Hv.
  destruct (Dict.getitem_default zero_counts (action_success self) act)
    as [stats d].
  simpl in Hv. rewrite <- Hv.
  destruct (Z.eqb_spec (success stats + failure stats) 0) as [E|E].
  - eexists. eexists. split; [reflexivity|]. split.
    + intros H. contradiction.
    + reflexivity.
  - unfold truediv.
    destruct (Z.eqb_spec (success stats + failure stats) 0) as [E'|_];
      [contradiction|].
    cbn [bind]. eexists. eexists. split; [reflexivity|]. split.
    + intros _. reflexivity.
    + intros Hs Hf. rewrite Hs, Hf in E. contradiction.
Qed.

Lemma get_success_rate_value_witness :
  recorded Scenario.mixed_outcomes "testing"
  = {| success := 2; failure := 1 |}
  /\ (exists rate self',
        get_success_rate Scenario.mixed_outcomes "testing" = Ok (rate, self')
        /\ rate == 2 # 3)
  /\ (exists self',
        get_success_rate PatternLearner.init "testing" = Ok (1 # 2, self')).
Proof.
  split; [reflexivity|]. split.
  - destruct (get_success_rate_value Scenario.mixed_outcomes "testing")
      as (rate & self' & Hrun & Hrate & _).
    exists rate, self'. split; [exact Hrun|].
    rewrite Hrate; [reflexivity | discriminate].
  - destruct (get_success_rate_value PatternLearner.init "testing")
      as (rate & self' & Hrun & _ & Hhalf).
    exists self'. rewrite Hrun, (Hhalf eq_refl eq_refl). reflexivity.
Defined.

(** C9: [get_success_rate] on an action without an entry returns 0.5
    and, through the [defaultdict] lookup, adds the entry
    [{'success': 0, 'failure': 0}] for it to the success statistics; a
    later [save] writes that entry; the sequence log, the contexts and
    the hour samples are as before. *)
Theorem get_success_rate_inserts_default (self : PatternLearner.t)
    (act : string) :
  Dict.get (action_success self) act = None ->
  exists self',
    get_success_rate self act = Ok (1 # 2, self')
    /\ action_success self'
       = action_success self ++ [(act, {| success := 0; failure := 0 |})]
    /\ Dict.get (action_success self') act
       = Some {| success := 0; failure := 0 |}
    /\ sequences self' = sequences self
    /\ action_contexts self' = action_contexts self
    /\ time_patterns self' = time_patterns self
    /\ Dict.get (snap_action_success (save self)) act = None
    /\ Dict.get (snap_action_success (save self')) act
       = Some {| success := 0; failure := 0 |}
    /\ snap_sequences (save self') = snap_sequences (save self)
    /\ snap_action_contexts (save self') = snap_action_contexts (save self)
    /\ snap_time_patterns (save self') = snap_time_patterns (save self).
Proof.
  intros Hnone.
  unfold get_success_rate, Dict.getitem_default. rewrite Hnone.
  cbn [success failure zero_counts Z.add Z.eqb].
  eexists. split; [reflexivity|].
  cbn [action_success sequences action_contexts time_patterns save
       snap_action_success snap_sequences snap_action_contexts
       snap_time_patterns].
  repeat split.
  - now apply dict_set_fresh.
  - apply dict_get_set_same.
  - exact Hnone.
  - apply dict_get_set_same.
Qed.

Lemma get_success_rate_inserts_default_witness :
  exists self',
    get_success_rate Scenario.mixed_outcomes "deployment" = Ok (1 # 2, self')
    /\ snap_action_success (save self')
       = [("testing", {| success := 2; failure := 1 |});
          ("deployment", {| success := 0; failure := 0 |})].
Proof.
  destruct (get_success_rate_inserts_default Scenario.mixed_outcomes
              "deployment" eq_refl)
    as (self' & Hrun & Happ & _).
  exists self'. split; [exact Hrun|].
  unfold save. cbn [snap_action_success]. rewrite Happ. reflexivity.
Defined.

(* ================================================================== *)
(** * Intent rules *)
(* ================================================================== *)

Import IntentPredictor.

Lemma match_rules_first (text : string) (pattern : Re.regex)
    (intent : string) (post : list (Re.regex * string)) :
  forall pre,
    (forall rule, In rule pre -> Re.search (fst rule) text = false) ->
    Re.search pattern text = true ->
    match_rules (pre ++ (pattern, intent) :: post) text
    = (Some intent, 6 # 10).
Proof.
  induction pre as [|[p i] pre IH]; intros Hpre Hhit; simpl.
  - now rewrite Hhit.
  - pose proof (Hpre (p, i) (or_introl eq_refl)) as E. simpl in E.
    rewrite E. apply IH; [|exact Hhit].
    intros rule Hin. apply Hpre. right. exact Hin.
Qed.

Lemma match_rules_none (text : string) :
  forall rules,
    (forall rule, In rule rules -> Re.search (fst rule) text = false) ->
    match_rules rules text = (None, 0).
Proof.
  induction rules as [|[p i] rules IH]; intros Hall; simpl.
  - reflexivity.
  - pose proof (Hall (p, i) (or_introl eq_refl)) as E. simpl in E.
    rewrite E. apply IH. intros rule Hin. apply Hall. right. exact Hin.
Qed.

(** C6: [match_patterns] tries the rules in the order they are declared
    and returns the intent of the first rule whose pattern is found in
    the text, with base confidence exactly 0.6, whatever later rules
    match; the text "I need to clean this CSV file with messy data"
    gives [data_processing] with base confidence 0.6. *)
Theorem match_patterns_first_rule_wins :
  (forall text pre pattern intent post,
      intent_patterns = pre ++ (pattern, intent) :: post ->
      (forall rule, In rule pre -> Re.search (fst rule) text = false) ->
      Re.search pattern text = true ->
      match_patterns text = (Some intent, 6 # 10))
  /\ match_patterns "I need to clean this CSV file with messy data"
     = (Some "data_processing", 6 # 10).
Proof.
  split.
  - intros text pre pattern intent post Hsplit Hpre Hhit.
    unfold match_patterns. rewrite Hsplit.
    now apply match_rules_first.
  - vm_compute. reflexivity.
Qed.

Lemma match_patterns_first_rule_wins_witness :
  match_patterns "Call the API to get user data"
  = (Some "api_request", 6 # 10)
  /\ Re.search (Re.alts "help" ["guide"; "tutorial"])
       "help me load the data file" = true
  /\ match_patterns "help me load the data file"
     = (Some "data_loading", 6 # 10).
Proof.
  destruct match_patterns_first_rule_wins as [Hfirst _].
  split; [|split].
  - apply (Hfirst "Call the API to get user data"
             (firstn 3 intent_patterns)
             (gap "call" ["request"; "fetch"; "get"]
                  "api" ["endpoint"; "url"])
             "api_request" (skipn 4 intent_patterns)).
    + reflexivity.
    + intros rule [H|[H|[H|[]]]]; subst rule; vm_compute; reflexivity.
    + vm_compute. reflexivity.
  - vm_compute. reflexivity.
  - apply (Hfirst "help me load the data file"
             (firstn 1 intent_patterns)
             (gap "load" ["read"; "import"]
                  "data" ["file"; "csv"; "json"])
             "data_loading" (skipn 2 intent_patterns)).
    + reflexivity.
    + intros rule [H|[]]; subst rule; vm_compute; reflexivity.
    + vm_compute. reflexivity.
Defined.

(* ================================================================== *)
(** * Confidence boosting *)
(* ================================================================== *)

Lemma keyword_boost_range (n : nat) :
  0 <= Qmin (inject_Z (Z.of_nat n) * (1 # 10)) (3 # 10) <= 3 # 10.
Proof.
  split.
  - apply Q.min_glb; [|discriminate].
    apply Qmult_le_0_compat; [|discriminate].
    unfold Qle. simpl. lia.
  - apply Q.le_min_r.
Qed.

Lemma falsy_context_no_recent (context : context_t) :
  truthy_context context = false -> recent_actions_of context = [].
Proof.
  destruct context as [[|e d]|]; simpl; intros H;
    [reflexivity | discriminate | reflexivity].
Qed.

Lemma boost_confidence_formula (intent text : string) (base : Q)
    (context : context_t) :
  boost_confidence intent text base context
  == Qmin
       (base
        + Qmin (inject_Z (Z.of_nat (booster_hits intent text)) * (1 # 10))
            (3 # 10)
        + (if mem intent (recent_actions_of context) then 1 # 10 else 0))
       1.
Proof.
  unfold boost_confidence, booster_hits.
  assert (Hzero : Qmin (inject_Z (Z.of_nat 0) * (1 # 10)) (3 # 10) == 0)
    by reflexivity.
  destruct (truthy_context context) eqn:Ht.
  - destruct (Dict.get confidence_boosters intent) as [keywords|];
      destruct (mem intent (recent_actions_of context)).
    + reflexivity.
    + now rewrite Qplus_0_r.
    + now rewrite Hzero, Qplus_0_r.
    + now rewrite Hzero, !Qplus_0_r.
  - rewrite (falsy_context_no_recent context Ht). cbn [mem existsb].
    destruct (Dict.get confidence_boosters intent) as [keywords|].
    + now rewrite Qplus_0_r.
    + now rewrite Hzero, !Qplus_0_r.
Qed.



(* ================================================================== *)
(** * The pattern cache *)
(* ================================================================== *)

Section Cache.

Import AdaptiveEngine.

Context {Prediction : Type}.

Implicit Types (self : AdaptiveEngine.t Prediction) (p fresh : Prediction).

(** The state [predict_intent] leaves after a miss. *)
Lemma predict_intent_miss self context user_id now fresh now' :
  cache_lookup self (cache_key context user_id) now = None ->
  predict_intent self context user_id now fresh now'
  = (fresh,
     {| pattern_cache :=
          Dict.set (pattern_cache self) (cache_key context user_id)
            {| prediction := fresh; timestamp := now' |};
        predictions_made := predictions_made self + 1 |}).
Proof.
  intros H. unfold predict_intent. now rewrite H.
Qed.

Lemma cache_lookup_stored self key p stamp now :
  Dict.get (pattern_cache self) key
  = Some {| prediction := p; timestamp := stamp |} ->
  cache_lookup self key now
  = if (timedelta_seconds (now - stamp) <? cache_ttl)%Z
    then Some p else None.
Proof.
  intros H. unfold cache_lookup. now rewrite H.
Qed.

Lemma timedelta_seconds_same_day (delta : Z) :
  (0 <= delta < seconds 86400)%Z ->
  timedelta_seconds delta = (delta / 1000000)%Z.
Proof.
  unfold timedelta_seconds, seconds. intros H.
  apply Z.mod_small. split.
  - apply Z.div_pos; lia.
  - apply Z.div_lt_upper_bound; lia.
Qed.

(** An entry is served again while less than 300 seconds have passed
    since it was written. *)
Lemma cache_hit_within_ttl self key p stamp now :
  Dict.get (pattern_cache self) key
  = Some {| prediction := p; timestamp := stamp |} ->
  (0 <= now - stamp < seconds 300)%Z ->
  cache_lookup self key now = Some p.
Proof.
  intros Hget Hd. rewrite (cache_lookup_stored _ _ _ _ _ Hget).
  unfold seconds in Hd.
  rewrite timedelta_seconds_same_day by (unfold seconds; lia).
  assert (Hlt : (((now - stamp) / 1000000) < 300)%Z)
    by (apply Z.div_lt_upper_bound; lia).
  unfold cache_ttl. apply Z.ltb_lt in Hlt. now rewrite Hlt.
Qed.

(** From 300 seconds on, and for the rest of the first day, the entry
    is not served. *)
Lemma cache_miss_rest_of_day self key p stamp now :
  Dict.get (pattern_cache self) key
  = Some {| prediction := p; timestamp := stamp |} ->
  (seconds 300 <= now - stamp < seconds 86400)%Z ->
  cache_lookup self key now = None.
Proof.
  intros Hget Hd. rewrite (cache_lookup_stored _ _ _ _ _ Hget).
  unfold seconds in Hd.
  rewrite timedelta_seconds_same_day by (unfold seconds; lia).
  assert (Hge : (300 <= (now - stamp) / 1000000)%Z)
    by (apply Z.div_le_lower_bound; lia).
  unfold cache_ttl. apply Z.ltb_ge in Hge. now rewrite Hge.
Qed.

(** Whole days drop out of [delta.seconds]. *)
Lemma timedelta_seconds_days (days delta : Z) :
  timedelta_seconds (seconds (86400 * days) + delta)
  = timedelta_seconds delta.
Proof.
  unfold timedelta_seconds, seconds.
  replace (86400 * days * 1000000 + delta)%Z
    with (delta + (86400 * days) * 1000000)%Z by lia.
  rewrite Z.div_add by lia.
  replace (delta / 1000000 + 86400 * days)%Z
    with (delta / 1000000 + days * 86400)%Z by lia.
  now rewrite Z.mod_add by lia.
Qed.

(** An entry older than any number of whole days by less than 300
    seconds is served as if it were fresh. *)
Lemma cache_hit_days_later self key p stamp now days :
  Dict.get (pattern_cache self) key
  = Some {| prediction := p; timestamp := stamp |} ->
  (0 <= now - stamp - seconds (86400 * days) < seconds 300)%Z ->
  cache_lookup self key now = Some p.
Proof.
  intros Hget Hd. rewrite (cache_lookup_stored _ _ _ _ _ Hget).
  replace (now - stamp)%Z
    with (seconds (86400 * days)
          + (now - stamp - seconds (86400 * days)))%Z by lia.
  rewrite timedelta_seconds_days.
  unfold seconds in Hd.
  rewrite timedelta_seconds_same_day by (unfold seconds; lia).
  assert (Hlt : ((now - stamp - seconds (86400 * days)) / 1000000 < 300)%Z)
    by (apply Z.div_lt_upper_bound; unfold seconds; lia).
  unfold cache_ttl. apply Z.ltb_lt in Hlt. now rewrite Hlt.
Qed.

End Cache.

(** C2: the code at the failing input. An entry written at time 0 is
    asked for again one day and ten seconds later, 86410 seconds after
    its insertion; [predict_intent] answers with the stored prediction,
    leaves the entry as it is and does not run the pipeline, although
    the entry is far older than the 300 seconds it may live. *)
Theorem predict_intent_serves_day_old_entry :
  let written :=
    snd (AdaptiveEngine.predict_intent AdaptiveEngine.init
           "deploy the service" "default" 0%Z "first answer" 0%Z) in
  AdaptiveEngine.pattern_cache written
  = [("default:deploy the service",
      {| AdaptiveEngine.prediction := "first answer";
         AdaptiveEngine.timestamp := 0%Z |})]
  /\ AdaptiveEngine.predict_intent written "deploy the service" "default"
       (AdaptiveEngine.seconds 86410%Z) "second answer"
       (AdaptiveEngine.seconds 86410%Z)
     = ("first answer", written)
  /\ AdaptiveEngine.predict_intent written "deploy the service" "default"
       (AdaptiveEngine.seconds 301%Z) "second answer"
       (AdaptiveEngine.seconds 301%Z)
     = ("second answer",
        {| AdaptiveEngine.pattern_cache :=
             [("default:deploy the service",
               {| AdaptiveEngine.prediction := "second answer";
                  AdaptiveEngine.timestamp := AdaptiveEngine.seconds 301%Z |})];
           AdaptiveEngine.predictions_made := 2%Z |}).
Proof.
  repeat split.
Qed.

(* ================================================================== *)
(** * Counters count *)
(* ================================================================== *)

Section TallyFacts.

Context {K : Type}.
Variable eqb : K -> K -> bool.
Variable eq_dec : forall a b : K, {a = b} + {a <> b}.
Hypothesis eqb_eq : forall a b, eqb a b = true <-> a = b.

Let eqb_refl (a : K) : eqb a a = true.
Proof. now apply eqb_eq. Qed.

Let eqb_neq (a b : K) : a <> b -> eqb a b = false.
Proof.
  intros H. destruct (eqb a b) eqn:E; [|reflexivity].
  apply eqb_eq in E. contradiction.
Qed.

Lemma tally_get_set_same (c : Tally.t K) (k : K) (n : nat) :
  Tally.get eqb (Tally.set eqb c k n) k = Some n.
Proof.
  induction c as [|[k' n'] c IH]; simpl.
  - now rewrite eqb_refl.
  - destruct (eqb k' k) eqn:E; simpl; rewrite E; [reflexivity | exact IH].
Qed.

Lemma tally_get_set_other (c : Tally.t K) (k k' : K) (n : nat) :
  k <> k' -> Tally.get eqb (Tally.set eqb c k n) k' = Tally.get eqb c k'.
Proof.
  intros Hne. induction c as [|[k0 n0] c IH]; simpl.
  - now rewrite eqb_neq.
  - destruct (eqb k0 k) eqn:E; simpl.
    + apply eqb_eq in E. subst k0. now rewrite eqb_neq.
    + now rewrite IH.
Qed.

Lemma tally_get_none_keys (c : Tally.t K) (k : K) :
  Tally.get eqb c k = None <-> ~ In k (map fst c).
Proof.
  induction c as [|[k' n'] c IH]; simpl.
  - tauto.
  - destruct (eqb k' k) eqn:E.
    + apply eqb_eq in E. split; [discriminate | tauto].
    + rewrite IH. split; [|tauto].
      intros H [Heq|Hin]; [|tauto].
      subst k'. rewrite eqb_refl in E. discriminate.
Qed.

Lemma tally_set_keys (c : Tally.t K) (k : K) (n : nat) :
  map fst (Tally.set eqb c k n)
  = match Tally.get eqb c k with
    | Some _ => map fst c
    | None => map fst c ++ [k]
    end.
Proof.
  induction c as [|[k' n'] c IH]; simpl.
  - reflexivity.
  - destruct (eqb k' k) eqn:E; simpl.
    + reflexivity.
    + rewrite IH. now destruct (Tally.get eqb c k).
Qed.

Lemma tally_incr_nodup (c : Tally.t K) (x : K) :
  NoDup (map fst c) -> NoDup (map fst (Tally.incr eqb c x)).
Proof.
  intros Hnd. unfold Tally.incr.
  destruct (Tally.get eqb c x) eqn:E; rewrite tally_set_keys, E.
  - exact Hnd.
  - apply NoDup_app; [exact Hnd | repeat constructor; tauto |].
    intros y Hy [Hx|[]]. subst y.
    now apply tally_get_none_keys in E.
Qed.

Lemma tally_incr_get (c : Tally.t K) (pre : list K) (x : K) :
  (forall k, Tally.get eqb c k = held (count_occ eq_dec pre k)) ->
  forall k,
    Tally.get eqb (Tally.incr eqb c x) k
    = held (count_occ eq_dec (pre ++ [x]) k).
Proof.
  intros Hc k. rewrite count_occ_app. simpl.
  unfold Tally.incr. destruct (eq_dec x k) as [->|Hne].
  - rewrite (Hc k).
    destruct (count_occ eq_dec pre k) as [|n]; simpl;
      rewrite tally_get_set_same; [reflexivity|].
    f_equal. lia.
  - rewrite Nat.add_0_r, <- (Hc k).
    destruct (Tally.get eqb c x); now apply tally_get_set_other.
Qed.

Lemma tally_fold_spec (xs : list K) :
  forall (c : Tally.t K) (pre : list K),
    NoDup (map fst c) ->
    (forall k, Tally.get eqb c k = held (count_occ eq_dec pre k)) ->
    NoDup (map fst (fold_left (Tally.incr eqb) xs c))
    /\ forall k,
         Tally.get eqb (fold_left (Tally.incr eqb) xs c) k
         = held (count_occ eq_dec (pre ++ xs) k).
Proof.
  induction xs as [|x xs IH]; intros c pre Hnd Hc; simpl.
  - rewrite app_nil_r. now split.
  - replace (pre ++ x :: xs) with ((pre ++ [x]) ++ xs)
      by now rewrite <- app_assoc.
    apply IH.
    + now apply tally_incr_nodup.
    + now apply tally_incr_get.
Qed.

Lemma tally_of_list_nodup (xs : list K) :
  NoDup (map fst (Tally.of_list eqb xs)).
Proof.
  apply (tally_fold_spec xs [] []); [constructor | reflexivity].
Qed.

Lemma tally_of_list_get (xs : list K) (k : K) :
  Tally.get eqb (Tally.of_list eqb xs) k = held (count_occ eq_dec xs k).
Proof.
  apply (tally_fold_spec xs [] []); [constructor | reflexivity].
Qed.

Lemma tally_in_get (c : Tally.t K) (k : K) (n : nat) :
  NoDup (map fst c) -> In (k, n) c -> Tally.get eqb c k = Some n.
Proof.
  induction c as [|[k' n'] c IH]; simpl; intros Hnd Hin; [tauto|].
  inversion Hnd as [|? ? Hnotin Hnd']; subst.
  destruct Hin as [Heq|Hin].
  - inversion Heq; subst. now rewrite eqb_refl.
  - destruct (eqb k' k) eqn:E.
    + apply eqb_eq in E. subst k'.
      exfalso. apply Hnotin. now apply (in_map fst) in Hin.
    + now apply IH.
Qed.

Lemma tally_get_in (c : Tally.t K) (k : K) (n : nat) :
  Tally.get eqb c k = Some n -> In (k, n) c.
Proof.
  induction c as [|[k' n'] c IH]; simpl; intros H; [discriminate|].
  destruct (eqb k' k) eqn:E.
  - apply eqb_eq in E. inversion H; subst. now left.
  - right. now apply IH.
Qed.

(** An entry of [Counter(xs)] is a key of [xs] with the number of its
    occurrences, and every key of [xs] has its entry. *)
Lemma tally_of_list_entries (xs : list K) (k : K) (n : nat) :
  In (k, n) (Tally.of_list eqb xs)
  <-> (n = count_occ eq_dec xs k /\ (0 < n)%nat).
Proof.
  split.
  - intros Hin.
    apply tally_in_get in Hin; [|apply tally_of_list_nodup].
    rewrite tally_of_list_get in Hin.
    destruct (count_occ eq_dec xs k); simpl in Hin; inversion Hin.
    split; [reflexivity | lia].
  - intros [-> Hpos]. apply tally_get_in.
    rewrite tally_of_list_get.
    destruct (count_occ eq_dec xs k); [lia | reflexivity].
Qed.

End TallyFacts.

(** The first entry with the largest count is an entry, and no entry
    has a larger count. *)
Lemma most_common1_is_max {K} (e : K * nat) (c : Tally.t K) :
  forall best,
    fold_left
      (fun best e' => if (snd e' <=? snd best)%nat then best else e')
      c e = best ->
    In best (e :: c)
    /\ forall e', In e' (e :: c) -> (snd e' <= snd best)%nat.
Proof.
  revert e. induction c as [|x c IH]; intros e best H; simpl in H.
  - subst best. split; [now left|]. intros e' [->|[]]. lia.
  - destruct (Nat.leb_spec (snd x) (snd e)) as [Hle|Hgt].
    + destruct (IH e best H) as [Hin Hmax]. split.
      * destruct Hin as [->|Hin]; [now left | right; now right].
      * intros e' [->|[->|Hin']].
        -- apply Hmax. now left.
        -- specialize (Hmax e (or_introl eq_refl)). lia.
        -- apply Hmax. now right.
    + destruct (IH x best H) as [Hin Hmax]. split.
      * right. exact Hin.
      * intros e' [->|[->|Hin']].
        -- specialize (Hmax x (or_introl eq_refl)). lia.
        -- apply Hmax. now left.
        -- apply Hmax. now right.
Qed.

Lemma tally_most_common1_spec {K} (c : Tally.t K) (e : K * nat) :
  Tally.most_common1 c = [e] ->
  In e c /\ forall e', In e' c -> (snd e' <= snd e)%nat.
Proof.
  destruct c as [|x c]; simpl; intros H; [discriminate|].
  inversion H as [H']. rewrite H'.
  now apply (most_common1_is_max x c).
Qed.

Lemma tally_most_common1_nonempty {K} (c : Tally.t K) :
  c <> [] -> exists e, Tally.most_common1 c = [e].
Proof.
  destruct c as [|x c]; [congruence|]. intros _. simpl.
  eexists. reflexivity.
Qed.

Lemma dict_get_is_tally (c : Counter.t) (k : string) :
  Dict.get c k = Tally.get String.eqb c k.
Proof.
  induction c as [|[k' n] c IH]; simpl; [reflexivity|].
  now rewrite IH.
Qed.

Lemma dict_set_is_tally (c : Counter.t) (k : string) (n : nat) :
  Dict.set c k n = Tally.set String.eqb c k n.
Proof.
  induction c as [|[k' n'] c IH]; simpl; [reflexivity|].
  now rewrite IH.
Qed.

Lemma counter_is_tally (xs : list string) :
  Counter.of_list xs = Tally.of_list String.eqb xs.
Proof.
  unfold Counter.of_list, Tally.of_list, Dict.empty.
  generalize (@nil (string * nat)).
  induction xs as [|x xs IH]; intros c; simpl; [reflexivity|].
  rewrite <- IH. f_equal.
  unfold Counter.incr, Tally.incr.
  rewrite <- dict_get_is_tally.
  destruct (Dict.get c x); apply dict_set_is_tally.
Qed.

(** The label [most_common] picks occurs in the list, and no label
    occurs more often. *)
Lemma most_common_spec (xs : list string) (a : string) :
  most_common xs = Some a ->
  In a xs
  /\ forall b, (count_occ string_dec xs b <= count_occ string_dec xs a)%nat.
Proof.
  unfold most_common. rewrite counter_is_tally.
  change (Counter.most_common1 (Tally.of_list String.eqb xs))
    with (Tally.most_common1 (Tally.of_list String.eqb xs)).
  destruct (Tally.most_common1 (Tally.of_list String.eqb xs))
    as [|[a' n] rest] eqn:E; [discriminate|].
  intros H. inversion H; subst a'. clear H.
  assert (Hrest : rest = []).
  { destruct (Tally.of_list String.eqb xs); simpl in E;
      [discriminate | now inversion E]. }
  subst rest.
  destruct (tally_most_common1_spec _ _ E) as [Hin Hmax].
  apply (tally_of_list_entries String.eqb string_dec String.eqb_eq)
    in Hin as [Hn Hpos].
  split.
  - apply (count_occ_In string_dec). simpl in Hn. lia.
  - intros b.
    destruct (count_occ string_dec xs b) as [|m] eqn:Eb; [lia|].
    assert (Hb : In (b, S m) (Tally.of_list String.eqb xs)).
    { apply (tally_of_list_entries String.eqb string_dec String.eqb_eq).
      split; [now rewrite Eb | lia]. }
    specialize (Hmax _ Hb). simpl in Hmax, Hn. lia.
Qed.

Lemma most_common_none (xs : list string) :
  most_common xs = None <-> xs = [].
Proof.
  split.
  - intros H. destruct xs as [|x xs]; [reflexivity|].
    destruct (most_common1_single (x :: xs) eq_refl) as [e He].
    unfold most_common in H. rewrite He in H. discriminate.
  - intros ->. reflexivity.
Qed.

(* ================================================================== *)
(** * What the strategies predict *)
(* ================================================================== *)

Import PatternLearner Reference.

Lemma followers_in (last a : string) (sq : list string) :
  In a (followers last sq)
  <-> exists pre post, sq = pre ++ last :: a :: post.
Proof.
  induction sq as [|x sq IH].
  - simpl. split; [tauto|]. intros (pre & post & H).
    destruct pre; discriminate.
  - destruct sq as [|y tl].
    + simpl. split; [tauto|]. intros (pre & post & H).
      destruct pre as [|? [|? ?]]; discriminate.
    + change (followers last (x :: y :: tl))
        with (if x =? last then y :: followers last (y :: tl)
              else followers last (y :: tl)).
      split.
      * intros Hin.
        assert (Hcases : (x = last /\ y = a) \/ In a (followers last (y :: tl))).
        { destruct (String.eqb_spec x last) as [->|Hne].
          - destruct Hin as [->|Hin]; [left; now split | now right].
          - now right. }
        destruct Hcases as [[-> ->]|Hin'].
        -- exists [], tl. reflexivity.
        -- apply IH in Hin' as (pre & post & Heq).
           exists (x :: pre), post. simpl. now rewrite Heq.
      * intros (pre & post & Heq).
        destruct pre as [|p pre]; simpl in Heq.
        -- inversion Heq; subst. rewrite String.eqb_refl. now left.
        -- inversion Heq as [[Hx Hrest]]. subst p.
           assert (Hin : In a (followers last (y :: tl)))
             by (apply IH; now exists pre, post).
           destruct (x =? last); [now right | exact Hin].
Qed.

(** X1: the action [predict_from_sequences] returns stands directly
    after the last recent action in a stored sequence, and no other
    label follows that action more often. *)
Theorem predict_from_sequences_most_frequent_follower
    (self : PatternLearner.t) (recent : option (list string)) (a : string) :
  predict_from_sequences self recent = Ok (Some a) ->
  exists last,
    last_action recent = Some last
    /\ last <> ""
    /\ (exists sq pre post,
           In sq (sequences self) /\ sq = pre ++ last :: a :: post)
    /\ forall b,
         (count_occ string_dec
            (flat_map (followers last) (sequences self)) b
          <= count_occ string_dec
               (flat_map (followers last) (sequences self)) a)%nat.
Proof.
  rewrite predict_from_sequences_spec.
  destruct (last_action recent) as [last|]; [|discriminate].
  unfold truthy_str.
  destruct (String.eqb_spec last "") as [->|Hne]; [discriminate|].
  simpl. intros H. inversion H as [Hmc]. clear H.
  apply most_common_spec in Hmc as [Hin Hmax].
  exists last. repeat split; try assumption.
  apply in_flat_map in Hin as (sq & Hsq & Hfol).
  apply followers_in in Hfol as (pre & post & Heq).
  now exists sq, pre, post.
Qed.

Lemma predict_from_sequences_most_frequent_follower_witness :
  exists sq pre post,
    In sq (sequences Scenario.trained)
    /\ sq = pre ++ "data_analysis" :: "reporting" :: post.
Proof.
  destruct (predict_from_sequences_most_frequent_follower
              Scenario.trained (Some ["data_analysis"]) "reporting")
    as (last & Hlast & _ & Hsq & _).
  - vm_compute. reflexivity.
  - inversion Hlast; subst last. exact Hsq.
Defined.

(** X2: [predict_from_sequences] returns [None] exactly when there is no
    last action to go by or nothing was ever seen to follow it. *)
Theorem predict_from_sequences_none_iff (self : PatternLearner.t)
    (recent : option (list string)) :
  predict_from_sequences self recent = Ok None
  <-> (forall last,
         last_action recent = Some last -> last <> "" ->
         forall sq pre post b,
           In sq (sequences self) -> sq <> pre ++ last :: b :: post).
Proof.
  rewrite predict_from_sequences_spec.
  destruct (last_action recent) as [last|].
  - unfold truthy_str.
    destruct (String.eqb_spec last "") as [->|Hne]; simpl.
    + split; [|reflexivity]. intros _ last' Hl Hne. congruence.
    + split.
      * intros H. inversion H as [Hmc]. apply most_common_none in Hmc.
        intros last' Hl _ sq pre post b Hsq Heq. inversion Hl; subst last'.
        assert (Hin : In b (flat_map (followers last) (sequences self))).
        { apply in_flat_map. exists sq. split; [exact Hsq|].
          apply followers_in. now exists pre, post. }
        rewrite Hmc in Hin. exact Hin.
      * intros H. f_equal. apply most_common_none.
        destruct (flat_map (followers last) (sequences self)) as [|b l] eqn:E;
          [reflexivity|].
        assert (Hin : In b (flat_map (followers last) (sequences self)))
          by (rewrite E; now left).
        apply in_flat_map in Hin as (sq & Hsq & Hfol).
        apply followers_in in Hfol as (pre & post & Heq).
        exfalso. now apply (H last eq_refl Hne sq pre post b Hsq).
  - split; [|reflexivity]. intros _ last H. discriminate.
Qed.

Lemma predict_from_sequences_none_iff_witness :
  Scenario.workflow_report <> [] ++ "deployment" :: "build" :: [].
Proof.
  apply (proj1 (predict_from_sequences_none_iff Scenario.trained
                  (Some ["deployment"])))
    with (last := "deployment").
  - vm_compute. reflexivity.
  - reflexivity.
  - discriminate.
  - left. reflexivity.
Defined.

Lemma votes_in (query a : string) (entry : string * list string) :
  In a (votes query entry)
  <-> a = fst entry
      /\ exists stored,
           In stored (snd entry) /\ similar query (lower stored) = true.
Proof.
  unfold votes. rewrite in_map_iff. split.
  - intros (stored & Ha & Hin). apply filter_In in Hin as [Hin Hsim].
    split; [now symmetry | now exists stored].
  - intros (Ha & stored & Hin & Hsim). exists stored.
    split; [now symmetry | apply filter_In; now split].
Qed.

(** X4: the action [predict_from_context] returns has a stored sample
    similar to the query, and no action has more such samples. *)
Theorem predict_from_context_most_votes (self : PatternLearner.t)
    (context a : string) :
  predict_from_context self context = Ok (Some a) ->
  (exists samples stored,
      In (a, samples) (action_contexts self)
      /\ In stored samples
      /\ contexts_similar (lower context) (lower stored) = Ok true)
  /\ forall b,
       (count_occ string_dec
          (flat_map (votes (lower context)) (action_contexts self)) b
        <= count_occ string_dec
             (flat_map (votes (lower context)) (action_contexts self)) a)%nat.
Proof.
  rewrite predict_from_context_spec. intros H. inversion H as [Hmc].
  apply most_common_spec in Hmc as [Hin Hmax].
  split; [|exact Hmax].
  apply in_flat_map in Hin as ([a' samples] & Hentry & Hvote).
  apply votes_in in Hvote as (Ha & stored & Hstored & Hsim).
  simpl in Ha, Hstored. subst a'.
  exists samples, stored. repeat split; try assumption.
  rewrite contexts_similar_spec. now rewrite Hsim.
Qed.

Lemma predict_from_context_most_votes_witness :
  exists samples stored,
    In ("reporting", samples) (action_contexts Scenario.both_sources)
    /\ In stored samples
    /\ contexts_similar (lower "Sales REPORT") (lower stored) = Ok true.
Proof.
  apply (predict_from_context_most_votes Scenario.both_sources
           "Sales REPORT" "reporting").
  vm_compute. reflexivity.
Defined.

(** X5: [predict_from_context] returns [None] exactly when no stored
    sample of any action is similar to the query; so it does on a
    learner that has observed nothing. *)
Theorem predict_from_context_none_iff (self : PatternLearner.t)
    (context : string) :
  predict_from_context self context = Ok None
  <-> (forall a samples stored,
         In (a, samples) (action_contexts self) ->
         In stored samples ->
         contexts_similar (lower context) (lower stored) = Ok false).
Proof.
  rewrite predict_from_context_spec. split.
  - intros H. inversion H as [Hmc]. apply most_common_none in Hmc.
    intros a samples stored Hentry Hstored.
    rewrite contexts_similar_spec. f_equal.
    destruct (similar (lower context) (lower stored)) eqn:Hsim;
      [|reflexivity].
    assert (Hin : In a (flat_map (votes (lower context))
                          (action_contexts self))).
    { apply in_flat_map. exists (a, samples). split; [exact Hentry|].
      apply votes_in. split; [reflexivity | now exists stored]. }
    rewrite Hmc in Hin. destruct Hin.
  - intros H. f_equal. apply most_common_none.
    destruct (flat_map (votes (lower context)) (action_contexts self))
      as [|b l] eqn:E; [reflexivity|].
    assert (Hin : In b (flat_map (votes (lower context))
                          (action_contexts self)))
      by (rewrite E; now left).
    apply in_flat_map in Hin as ([a samples] & Hentry & Hvote).
    apply votes_in in Hvote as (_ & stored & Hstored & Hsim).
    specialize (H a samples stored Hentry Hstored).
    rewrite contexts_similar_spec, Hsim in H. discriminate.
Qed.

Lemma predict_from_context_none_iff_witness :
  predict_from_context PatternLearner.init "weekly sales report" = Ok None
  /\ contexts_similar (lower "quarterly tax filing")
       (lower "weekly sales report") = Ok false.
Proof.
  split.
  - apply (proj2 (predict_from_context_none_iff PatternLearner.init
                    "weekly sales report")).
    intros a samples stored [].
  - apply (proj1 (predict_from_context_none_iff Scenario.both_sources
                    "quarterly tax filing"))
      with (a := "reporting") (samples := ["weekly sales report"]).
    + vm_compute. reflexivity.
    + left. reflexivity.
    + left. reflexivity.
Defined.

(* ================================================================== *)
(** * Word overlap *)
(* ================================================================== *)

Lemma mem_In (x : string) (l : list string) : mem x l = true <-> In x l.
Proof.
  unfold mem. rewrite existsb_exists. split.
  - intros (y & Hin & Heq). apply String.eqb_eq in Heq. now subst.
  - intros Hin. exists x. split; [exact Hin | apply String.eqb_refl].
Qed.

Lemma inter_size_comm (a b : list string) :
  NoDup a -> NoDup b -> inter_size a b = inter_size b a.
Proof.
  intros Ha Hb. unfold inter_size.
  apply Permutation_length.
  apply NoDup_Permutation; try now apply NoDup_filter.
  intros x. rewrite !filter_In, !mem_In. tauto.
Qed.

Lemma union_size_inter (a b : list string) :
  (union_size a b + inter_size b a = length a + length b)%nat.
Proof.
  unfold union_size, inter_size.
  pose proof (filter_length (fun x => mem x a) b) as H. lia.
Qed.

Lemma union_size_comm (a b : list string) :
  NoDup a -> NoDup b -> union_size a b = union_size b a.
Proof.
  intros Ha Hb.
  pose proof (union_size_inter a b). pose proof (union_size_inter b a).
  pose proof (inter_size_comm a b Ha Hb). lia.
Qed.

Lemma similar_comm (ctx1 ctx2 : string) :
  similar ctx1 ctx2 = similar ctx2 ctx1.
Proof.
  unfold similar, set_of.
  rewrite (inter_size_comm (nodup string_dec (split ctx1))
             (nodup string_dec (split ctx2)))
    by apply NoDup_nodup.
  rewrite (union_size_comm (nodup string_dec (split ctx1))
             (nodup string_dec (split ctx2)))
    by apply NoDup_nodup.
  now rewrite (andb_comm (truthy_list (nodup string_dec (split ctx1)))).
Qed.

(** X6: [contexts_similar] does not depend on the order of its two
    arguments. *)
Theorem contexts_similar_symmetric (ctx1 ctx2 : string) :
  contexts_similar ctx1 ctx2 = contexts_similar ctx2 ctx1.
Proof.
  rewrite !contexts_similar_spec. now rewrite similar_comm.
Qed.

Lemma filter_all {A} (f : A -> bool) (l : list A) :
  (forall x, In x l -> f x = true) -> filter f l = l.
Proof.
  induction l as [|x l IH]; intros H; simpl; [reflexivity|].
  rewrite (H x) by now left. f_equal. apply IH.
  intros y Hy. apply H. now right.
Qed.

Lemma filter_none {A} (f : A -> bool) (l : list A) :
  (forall x, In x l -> f x = false) -> filter f l = [].
Proof.
  induction l as [|x l IH]; intros H; simpl; [reflexivity|].
  rewrite (H x) by now left. apply IH.
  intros y Hy. apply H. now right.
Qed.

Lemma similar_refl (ctx : string) : split ctx <> [] -> similar ctx ctx = true.
Proof.
  intros Hne. unfold similar, set_of.
  set (w := nodup string_dec (split ctx)).
  assert (Hw : w <> []).
  { destruct (split ctx) as [|x l] eqn:E; [congruence|].
    assert (Hin : In x w) by (apply nodup_In; now left).
    intros Hnil. rewrite Hnil in Hin. destruct Hin. }
  assert (Hi : inter_size w w = length w).
  { unfold inter_size. rewrite filter_all; [reflexivity|].
    intros x Hx. now apply mem_In. }
  assert (Hu : union_size w w = length w).
  { unfold union_size. rewrite filter_none; [simpl; lia|].
    intros x Hx. apply negb_false_iff. now apply mem_In. }
  rewrite Hi, Hu.
  destruct w as [|x l]; [congruence|]. cbn [truthy_list andb].
  apply Qle_bool_iff. unfold threshold.
  assert (Hpos : 0 < inject_Z (Z.of_nat (length (x :: l)))).
  { unfold Qlt. simpl. lia. }
  setoid_replace (inject_Z (Z.of_nat (length (x :: l)))
                  / inject_Z (Z.of_nat (length (x :: l)))) with 1.
  - discriminate.
  - field. intros H. rewrite H in Hpos. now apply Qlt_irrefl in Hpos.
Qed.

Lemma split_from_nonempty (s cur : string) :
  cur <> "" -> split_from cur s <> [].
Proof.
  revert cur. induction s as [|c s IH]; intros cur Hcur; simpl.
  - destruct cur; [congruence | discriminate].
  - destruct (is_space c).
    + destruct cur; [congruence | discriminate].
    + apply IH. destruct cur; discriminate.
Qed.

Lemma split_not_blank (s : string) : blank s = false -> split s <> [].
Proof.
  unfold split. induction s as [|c s IH]; simpl; intros H.
  - discriminate.
  - destruct (is_space c); simpl in H.
    + now apply IH.
    + apply split_from_nonempty. discriminate.
Qed.

(* ================================================================== *)
(** * Observations accumulate *)
(* ================================================================== *)

Lemma dict_get_set_other {V} (d : Dict.t V) (k k' : string) (v : V) :
  k <> k' -> Dict.get (Dict.set d k v) k' = Dict.get d k'.
Proof.
  intros Hne. induction d as [|[k0 v0] d IH]; simpl.
  - destruct (String.eqb_spec k k'); [contradiction | reflexivity].
  - destruct (String.eqb_spec k0 k) as [->|Hk]; simpl.
    + destruct (String.eqb_spec k k'); [contradiction | reflexivity].
    + now rewrite IH.
Qed.

(** Reading an entry with its default and writing a new value back. *)
Lemma dict_update_get {V} (dflt : V) (f : V -> V) (d : Dict.t V)
    (k k' : string) :
  Dict.get
    (Dict.set (snd (Dict.getitem_default dflt d k)) k
       (f (fst (Dict.getitem_default dflt d k)))) k'
  = if k =? k'
    then Some (f match Dict.get d k with Some v => v | None => dflt end)
    else Dict.get d k'.
Proof.
  unfold Dict.getitem_default.
  destruct (String.eqb_spec k k') as [<-|Hne].
  - rewrite dict_get_set_same. now destruct (Dict.get d k).
  - rewrite dict_get_set_other by assumption.
    destruct (Dict.get d k); simpl; [reflexivity|].
    now apply dict_get_set_other.
Qed.

Lemma observe_fields (self : PatternLearner.t) (act context : string)
    (ok : bool) (hour : Z) :
  observe self act context ok hour
  = {| sequences := sequences self;
       action_contexts :=
         Dict.set (snd (Dict.getitem_default [] (action_contexts self) act))
           act
           (fst (Dict.getitem_default [] (action_contexts self) act)
            ++ [context]);
       action_success :=
         Dict.set
           (snd (Dict.getitem_default zero_counts (action_success self) act))
           act
           ((fun st =>
               if ok
               then {| success := success st + 1; failure := failure st |}
               else {| success := success st; failure := failure st + 1 |})
              (fst (Dict.getitem_default zero_counts
                      (action_success self) act)));
       time_patterns :=
         Dict.set (snd (Dict.getitem_default [] (time_patterns self) act))
           act
           (fst (Dict.getitem_default [] (time_patterns self) act)
            ++ [hour]) |}.
Proof.
  unfold observe.
  destruct (Dict.getitem_default [] (action_contexts self) act).
  destruct (Dict.getitem_default zero_counts (action_success self) act).
  destruct (Dict.getitem_default [] (time_patterns self) act).
  reflexivity.
Qed.

Lemma observe_contexts_get (self : PatternLearner.t) (act context : string)
    (ok : bool) (hour : Z) (k : string) :
  Dict.get (action_contexts (observe self act context ok hour)) k
  = if act =? k then Some (samples self act ++ [context])
    else Dict.get (action_contexts self) k.
Proof.
  rewrite observe_fields. cbn [action_contexts].
  exact (dict_update_get [] (fun l => l ++ [context])
           (action_contexts self) act k).
Qed.

Lemma observe_times_get (self : PatternLearner.t) (act context : string)
    (ok : bool) (hour : Z) (k : string) :
  Dict.get (time_patterns (observe self act context ok hour)) k
  = if act =? k then Some (hours self act ++ [hour])
    else Dict.get (time_patterns self) k.
Proof.
  rewrite observe_fields. cbn [time_patterns].
  exact (dict_update_get [] (fun l => l ++ [hour])
           (time_patterns self) act k).
Qed.

Lemma observe_success_get (self : PatternLearner.t) (act context : string)
    (ok : bool) (hour : Z) (k : string) :
  Dict.get (action_success (observe self act context ok hour)) k
  = if act =? k then Some (bump ok (recorded self act))
    else Dict.get (action_success self) k.
Proof.
  rewrite observe_fields. cbn [action_success].
  exact (dict_update_get zero_counts (bump ok)
           (action_success self) act k).
Qed.

(** X8: [observe] appends the context and the hour to the samples of its
    action and adds one to the success or to the failure counter;
    the samples and counters of every other action and the sequence
    log stay as they were. *)
Theorem observe_records_one_observation (self : PatternLearner.t)
    (act context : string) (ok : bool) (hour : Z) :
  samples (observe self act context ok hour) act
  = samples self act ++ [context]
  /\ hours (observe self act context ok hour) act = hours self act ++ [hour]
  /\ recorded (observe self act context ok hour) act
     = (if ok
        then {| success := success (recorded self act) + 1;
                failure := failure (recorded self act) |}
        else {| success := success (recorded self act);
                failure := failure (recorded self act) + 1 |})
  /\ sequences (observe self act context ok hour) = sequences self
  /\ forall other,
       other <> act ->
       samples (observe self act context ok hour) other = samples self other
       /\ hours (observe self act context ok hour) other = hours self other
       /\ recorded (observe self act context ok hour) other
          = recorded self other.
Proof.
  unfold samples at 1, hours at 1, recorded at 1.
  rewrite observe_contexts_get, observe_times_get, observe_success_get.
  rewrite String.eqb_refl.
  repeat split.
  - now rewrite observe_fields.
  - unfold samples at 1. rewrite observe_contexts_get.
    destruct (String.eqb_spec act other); [congruence | reflexivity].
  - unfold hours at 1. rewrite observe_times_get.
    destruct (String.eqb_spec act other); [congruence | reflexivity].
  - unfold recorded at 1. rewrite observe_success_get.
    destruct (String.eqb_spec act other); [congruence | reflexivity].
Qed.

Lemma observe_records_one_observation_witness :
  samples (observe Scenario.mixed_outcomes "deployment" "ship it" false 17)
    "testing"
  = ["run unit tests"; "run unit tests"; "run integration tests"]
  /\ recorded
       (observe Scenario.mixed_outcomes "deployment" "ship it" false 17)
       "deployment"
     = {| success := 0; failure := 1 |}.
Proof.
  destruct (observe_records_one_observation Scenario.mixed_outcomes
              "deployment" "ship it" false 17)
    as (_ & _ & Hrec & _ & Hother).
  split.
  - destruct (Hother "testing") as (Hs & _); [discriminate|].
    rewrite Hs. reflexivity.
  - rewrite Hrec. reflexivity.
Defined.

(* ================================================================== *)
(** * The learner after a history of calls *)
(* ================================================================== *)

Lemma run_snoc (history : list event) (e : event) :
  run (history ++ [e]) = step (run history) e.
Proof.
  unfold run. now rewrite fold_left_app.
Qed.

Lemma observed_contexts_snoc (act : string) (history : list event)
    (e : event) :
  observed_contexts act (history ++ [e])
  = observed_contexts act history ++ observed_contexts act [e].
Proof.
  induction history as [|x history IH]; [reflexivity|].
  destruct x as [a c ok hr| |]; simpl in *; try exact IH.
  destruct (a =? act); simpl; now rewrite IH.
Qed.

Lemma observed_hours_snoc (act : string) (history : list event) (e : event) :
  observed_hours act (history ++ [e])
  = observed_hours act history ++ observed_hours act [e].
Proof.
  induction history as [|x history IH]; [reflexivity|].
  destruct x as [a c ok hr| |]; simpl in *; try exact IH.
  destruct (a =? act); simpl; now rewrite IH.
Qed.

Lemma outcomes_snoc (act : string) (ok : bool) (history : list event)
    (e : event) :
  outcomes act ok (history ++ [e])
  = (outcomes act ok history + outcomes act ok [e])%Z.
Proof.
  induction history as [|x history IH]; [simpl; lia|].
  destruct x as [a c ok' hr| |]; simpl in *; try exact IH.
  destruct ((a =? act) && Bool.eqb ok ok'); rewrite IH; lia.
Qed.

Lemma accepted_sequences_snoc (history : list event) (e : event) :
  accepted_sequences (history ++ [e])
  = accepted_sequences history ++ accepted_sequences [e].
Proof.
  induction history as [|x history IH]; [reflexivity|].
  destruct x as [|l|]; cbn [accepted_sequences app]; try exact IH.
  destruct (2 <=? length l)%nat; cbn [app]; now rewrite IH.
Qed.

Lemma outcomes_nonneg (act : string) (ok : bool) (history : list event) :
  (0 <= outcomes act ok history)%Z.
Proof.
  induction history as [|x history IH]; simpl; [lia|].
  destruct x as [a c ok' hr| |]; try exact IH.
  destruct ((a =? act) && Bool.eqb ok ok'); lia.
Qed.

(** The rate and the state [get_success_rate] returns. *)
Lemma get_success_rate_unfold (self : PatternLearner.t) (act : string) :
  get_success_rate self act
  = Ok (if (success (recorded self act) + failure (recorded self act) =? 0)%Z
        then 1 # 2
        else inject_Z (success (recorded self act))
             / inject_Z (success (recorded self act)
                         + failure (recorded self act)),
        {| sequences := sequences self;
           action_contexts := action_contexts self;
           action_success :=
             snd (Dict.getitem_default zero_counts (action_success self) act);
           time_patterns := time_patterns self |}).
Proof.
  unfold get_success_rate, recorded, Dict.getitem_default.
  destruct (Dict.get (action_success self) act) as [st|]; cbn [fst snd].
  - destruct (Z.eqb_spec (success st + failure st) 0) as [E|E];
      [reflexivity|].
    unfold truediv.
    destruct (Z.eqb_spec (success st + failure st) 0); [contradiction|].
    reflexivity.
  - reflexivity.
Qed.

Lemma getitem_default_keeps_recorded (d : Dict.t counts) (act k : string) :
  match Dict.get (snd (Dict.getitem_default zero_counts d act)) k with
  | Some c => c
  | None => zero_counts
  end
  = match Dict.get d k with Some c => c | None => zero_counts end.
Proof.
  unfold Dict.getitem_default.
  destruct (Dict.get d act) eqn:E; cbn [snd]; [reflexivity|].
  destruct (String.eqb_spec act k) as [<-|Hne].
  - now rewrite dict_get_set_same, E.
  - now rewrite dict_get_set_other.
Qed.

Lemma observe_sequence_views (self : PatternLearner.t)
    (actions : list string) (act : string) :
  samples (observe_sequence self actions) act = samples self act
  /\ hours (observe_sequence self actions) act = hours self act
  /\ recorded (observe_sequence self actions) act = recorded self act
  /\ sequences (observe_sequence self actions)
     = sequences self ++ accepted_sequences [ObserveSequence actions].
Proof.
  unfold observe_sequence. cbn [accepted_sequences].
  destruct (2 <=? length actions)%nat; repeat split.
  cbn [sequences]. now rewrite app_nil_r.
Qed.

Lemma success_rate_views (self : PatternLearner.t) (a act : string) :
  samples (step self (SuccessRate a)) act = samples self act
  /\ hours (step self (SuccessRate a)) act = hours self act
  /\ recorded (step self (SuccessRate a)) act = recorded self act
  /\ sequences (step self (SuccessRate a)) = sequences self.
Proof.
  cbn [step]. rewrite get_success_rate_unfold.
  unfold samples, hours, recorded.
  cbn [sequences action_contexts action_success time_patterns].
  rewrite getitem_default_keeps_recorded. repeat split.
Qed.

(** X9: after any history of [observe], [observe_sequence] and
    [get_success_rate] calls on a fresh learner, the samples of an
    action are the contexts and hours of its observations in order, its
    counters are the numbers of its successful and failed observations,
    and the sequence log holds the sequences of length two or more, in
    order. *)
Theorem run_accumulates_history (history : list event) (act : string) :
  samples (run history) act = observed_contexts act history
  /\ hours (run history) act = observed_hours act history
  /\ recorded (run history) act
     = {| success := outcomes act true history;
          failure := outcomes act false history |}
  /\ sequences (run history) = accepted_sequences history.
Proof.
  induction history as [|e history IH] using rev_ind.
  - repeat split.
  - destruct IH as (Hs & Hh & Hr & Hq).
    rewrite run_snoc, observed_contexts_snoc, observed_hours_snoc,
      !outcomes_snoc, accepted_sequences_snoc.
    destruct e as [a c ok hr|l|a].
    + cbn [step observed_contexts observed_hours outcomes
           accepted_sequences].
      destruct (observe_records_one_observation (run history) a c ok hr)
        as (Hs' & Hh' & Hr' & Hq' & Hother).
      rewrite Hq', Hq, app_nil_r.
      destruct (String.eqb_spec a act) as [->|Hne].
      * rewrite Hs', Hh', Hr', Hs, Hh, Hr. cbn [success failure andb].
        repeat split. destruct ok; cbn [Bool.eqb]; f_equal; lia.
      * destruct (Hother act) as (Hs2 & Hh2 & Hr2); [congruence|].
        rewrite Hs2, Hh2, Hr2, Hs, Hh, Hr, !app_nil_r. cbn [andb].
        repeat split. f_equal; lia.
    + cbn [step observed_contexts observed_hours outcomes].
      destruct (observe_sequence_views (run history) l act)
        as (Hs' & Hh' & Hr' & Hq').
      rewrite Hs', Hh', Hr', Hq', Hs, Hh, Hr, Hq, !app_nil_r.
      repeat split. f_equal; lia.
    + cbn [observed_contexts observed_hours outcomes accepted_sequences].
      destruct (success_rate_views (run history) a act)
        as (Hs' & Hh' & Hr' & Hq').
      rewrite Hs', Hh', Hr', Hq', Hs, Hh, Hr, Hq, !app_nil_r.
      repeat split. f_equal; lia.
Qed.

(** X10: on a learner built by any history of calls, [get_success_rate]
    returns the share of successful observations of the action, a
    number between 0 and 1, and 0.5 when the action was never
    observed. *)
Theorem success_rate_after_history (history : list event) (act : string) :
  exists rate self',
    get_success_rate (run history) act = Ok (rate, self')
    /\ 0 <= rate <= 1
    /\ (observed_contexts act history = [] -> rate = 1 # 2)
    /\ (observed_contexts act history <> [] ->
        rate == inject_Z (outcomes act true history)
                / inject_Z (Z.of_nat (length (observed_contexts act history)))).
Proof.
  assert (Hlen : forall h,
             Z.of_nat (length (observed_contexts act h))
             = (outcomes act true h + outcomes act false h)%Z).
  { induction h as [|x h IH]; [reflexivity|].
    destruct x as [a c ok hr| |];
      cbn [observed_contexts outcomes]; try exact IH.
    destruct (a =? act); cbn [andb]; [|exact IH].
    destruct ok; cbn [Bool.eqb length]; lia. }
  destruct (run_accumulates_history history act) as (_ & _ & Hr & _).
  rewrite get_success_rate_unfold, Hr. cbn [success failure].
  pose proof (outcomes_nonneg act true history) as Hs.
  pose proof (outcomes_nonneg act false history) as Hf.
  specialize (Hlen history).
  eexists. eexists. split; [reflexivity|].
  destruct (Z.eqb_spec (outcomes act true history
                        + outcomes act false history) 0) as [E|E].
  - split; [split; discriminate|]. split; [reflexivity|].
    intros Hne. destruct (observed_contexts act history);
      [congruence | simpl in Hlen; lia].
  - rewrite <- Hlen in *.
    assert (Hpos : 0 < inject_Z (Z.of_nat
                                   (length (observed_contexts act history)))).
    { unfold Qlt. simpl. lia. }
    split; [|split; [|reflexivity]].
    + split.
      * apply Qle_shift_div_l; [exact Hpos|].
        rewrite Qmult_0_l. unfold Qle. simpl. lia.
      * apply Qle_shift_div_r; [exact Hpos|].
        rewrite Qmult_1_l. unfold Qle. simpl. lia.
    + intros Hnil. rewrite Hnil in E. simpl in E. congruence.
Qed.

Lemma success_rate_after_history_witness :
  exists rate self',
    get_success_rate
      (run [Observe "testing" "run unit tests" true 10;
            SuccessRate "deployment";
            ObserveSequence ["build"];
            Observe "testing" "run unit tests" false 11;
            Observe "testing" "run integration tests" true 10])
      "testing"
    = Ok (rate, self')
    /\ rate == 2 # 3.
Proof.
  destruct (success_rate_after_history
              [Observe "testing" "run unit tests" true 10;
               SuccessRate "deployment";
               ObserveSequence ["build"];
               Observe "testing" "run unit tests" false 11;
               Observe "testing" "run integration tests" true 10]
              "testing")
    as (rate & self' & Hrun & _ & _ & Hrate).
  exists rate, self'. split; [exact Hrun|].
  rewrite Hrate; [reflexivity | discriminate].
Defined.

(* ================================================================== *)
(** * Statistics, best hour and persistence *)
(* ================================================================== *)

Lemma sum_lengths_set {V} (d : Dict.t (list V)) (k : string)
    (old v : list V) :
  Dict.get d k = Some old ->
  (list_sum (map (fun e => length (snd e)) (Dict.set d k v)) + length old
   = list_sum (map (fun e => length (snd e)) d) + length v)%nat.
Proof.
  induction d as [|[k' v'] d IH]; simpl; intros H; [discriminate|].
  destruct (k' =? k); simpl.
  - inversion H; subst. lia.
  - specialize (IH H). lia.
Qed.

Lemma sum_lengths_update {V} (d : Dict.t (list V)) (k : string) (x : V) :
  list_sum
    (map (fun e => length (snd e))
       (Dict.set (snd (Dict.getitem_default [] d k)) k
          (fst (Dict.getitem_default [] d k) ++ [x])))
  = S (list_sum (map (fun e => length (snd e)) d)).
Proof.
  unfold Dict.getitem_default.
  destruct (Dict.get d k) as [old|] eqn:E; cbn [fst snd].
  - pose proof (sum_lengths_set d k old (old ++ [x]) E) as H.
    rewrite length_app in H. simpl in H. lia.
  - pose proof (sum_lengths_set (Dict.set d k []) k [] ([] ++ [x])
                  (dict_get_set_same d k [])) as H.
    rewrite (dict_set_fresh d k [] E) in H at 2.
    rewrite map_app, list_sum_app in H.
    cbn [map snd length app] in H |- *.
    change (list_sum [0%nat]) with 0%nat in H. lia.
Qed.

(** X11: after any history of calls on a fresh learner, [get_stats]
    reports as [total_observations] the number of [observe] calls and
    as [sequences_learned] the number of sequences of length two or
    more that were offered. *)
Theorem get_stats_counts_history (history : list event) :
  total_observations (get_stats (run history))
  = length (filter is_observe history)
  /\ sequences_learned (get_stats (run history))
     = length (accepted_sequences history).
Proof.
  split.
  - induction history as [|e history IH] using rev_ind; [reflexivity|].
    rewrite run_snoc, filter_app, length_app, <- IH.
    unfold get_stats. cbn [total_observations].
    destruct e as [a c ok hr|l|a]; cbn [step filter is_observe length].
    + rewrite observe_fields. cbn [action_contexts].
      rewrite sum_lengths_update. lia.
    + unfold observe_sequence.
      destruct (2 <=? length l)%nat; cbn [action_contexts]; lia.
    + rewrite get_success_rate_unfold. cbn [action_contexts]. lia.
  - destruct (run_accumulates_history history "") as (_ & _ & _ & Hq).
    unfold get_stats. cbn [sequences_learned]. now rewrite Hq.
Qed.

Section TallyTop.

Context {K : Type}.
Variable eqb : K -> K -> bool.
Variable eq_dec : forall a b : K, {a = b} + {a <> b}.
Hypothesis eqb_eq : forall a b, eqb a b = true <-> a = b.

Lemma tally_of_list_nonempty (x : K) (xs : list K) :
  Tally.of_list eqb (x :: xs) <> [].
Proof.
  intros Hnil.
  pose proof (tally_of_list_get eqb eq_dec eqb_eq (x :: xs) x) as H.
  rewrite Hnil in H. simpl in H.
  destruct (eq_dec x x); [discriminate | congruence].
Qed.

(** The most common key of a non-empty list is one of its elements and
    occurs at least as often as any other. *)
Lemma tally_top_spec (xs : list K) :
  xs <> [] ->
  exists a,
    Tally.most_common1 (Tally.of_list eqb xs) = [(a, count_occ eq_dec xs a)]
    /\ In a xs
    /\ forall b, (count_occ eq_dec xs b <= count_occ eq_dec xs a)%nat.
Proof.
  intros Hne. destruct xs as [|x xs]; [congruence|].
  destruct (tally_most_common1_nonempty (Tally.of_list eqb (x :: xs))
              (tally_of_list_nonempty x xs)) as [[a n] He].
  destruct (tally_most_common1_spec _ _ He) as [Hin Hmax].
  apply (tally_of_list_entries eqb eq_dec eqb_eq) in Hin as [Hn Hpos].
  exists a. rewrite He, Hn. split; [reflexivity|]. split.
  - apply (count_occ_In eq_dec). lia.
  - intros b.
    destruct (count_occ eq_dec (x :: xs) b) as [|m] eqn:Eb; [lia|].
    assert (Hb : In (b, S m) (Tally.of_list eqb (x :: xs))).
    { apply (tally_of_list_entries eqb eq_dec eqb_eq).
      split; [now rewrite Eb | lia]. }
    specialize (Hmax _ Hb). simpl in Hmax. lia.
Qed.

End TallyTop.

(** X12: [get_best_time] returns noon when the action has no recorded
    hour, and otherwise one of its recorded hours that no other hour
    beats in frequency. *)
Theorem get_best_time_is_most_frequent_hour (self : PatternLearner.t)
    (act : string) :
  exists hour,
    get_best_time self act = Ok hour
    /\ (hours self act = [] -> hour = 12%Z)
    /\ (hours self act <> [] ->
        In hour (hours self act)
        /\ forall other,
             (count_occ Z.eq_dec (hours self act) other
              <= count_occ Z.eq_dec (hours self act) hour)%nat).
Proof.
  unfold get_best_time. fold (hours self act).
  destruct (hours self act) as [|h l] eqn:E.
  - exists 12%Z. split; [reflexivity|]. split; [reflexivity | congruence].
  - cbn [truthy_list negb].
    destruct (tally_top_spec Z.eqb Z.eq_dec Z.eqb_eq (h :: l))
      as (a & Htop & Hin & Hmax); [discriminate|].
    rewrite Htop. exists a. split; [reflexivity|].
    split; [discriminate|]. intros _. now split.
Qed.

Lemma get_best_time_is_most_frequent_hour_witness :
  get_best_time Scenario.mixed_outcomes "deployment" = Ok 12%Z
  /\ exists hour,
       get_best_time Scenario.mixed_outcomes "testing" = Ok hour
       /\ In hour [10%Z; 11%Z; 10%Z].
Proof.
  split.
  - destruct (get_best_time_is_most_frequent_hour Scenario.mixed_outcomes
                "deployment") as (hour & Hrun & Hnone & _).
    rewrite Hrun, (Hnone eq_refl). reflexivity.
  - destruct (get_best_time_is_most_frequent_hour Scenario.mixed_outcomes
                "testing") as (hour & Hrun & _ & Hsome).
    exists hour. split; [exact Hrun|].
    apply Hsome. discriminate.
Defined.

(** What [save] writes, [load] reads back as the same learner. *)
Theorem load_save_round_trip (self : PatternLearner.t) :
  load (document_of (save self)) = self.
Proof.
  now destruct self.
Qed.

Lemma dict_get_in {V} (d : Dict.t V) (k : string) (v : V) :
  Dict.get d k = Some v -> In (k, v) d.
Proof.
  induction d as [|[k' v'] d IH]; simpl; intros H; [discriminate|].
  destruct (String.eqb_spec k' k) as [->|Hne].
  - inversion H. now left.
  - right. now apply IH.
Qed.

(** X7: once an action was observed in a context of ASCII characters
    that has a word, [predict_from_context] on that same context
    predicts an action, and on a learner that has seen nothing else it
    predicts that action. Outside ASCII the words of a context are not
    those of this embedding, and nothing is stated. *)
Theorem observed_context_is_recognised (self : PatternLearner.t)
    (act context : string) (ok : bool) (hour : Z) :
  is_ascii context = true ->
  blank context = false ->
  (exists a,
      predict_from_context (observe self act context ok hour) context
      = Ok (Some a))
  /\ predict_from_context (observe PatternLearner.init act context ok hour)
       context
     = Ok (Some act).
Proof.
  intros _ Hblank.
  assert (Hsim : similar (lower context) (lower context) = true).
  { apply similar_refl, split_not_blank. now rewrite blank_lower. }
  split.
  - rewrite predict_from_context_spec.
    destruct (most_common _) as [a|] eqn:E; [now exists a|].
    apply most_common_none in E.
    assert (Hin : In act
                    (flat_map (votes (lower context))
                       (action_contexts
                          (observe self act context ok hour)))).
    { apply in_flat_map. exists (act, samples self act ++ [context]). split.
      - apply dict_get_in. rewrite observe_contexts_get.
        now rewrite String.eqb_refl.
      - apply votes_in. split; [reflexivity|].
        exists context. split; [|exact Hsim].
        apply in_or_app. right. now left. }
    rewrite E in Hin. destruct Hin.
  - rewrite predict_from_context_spec.
    assert (Hd : action_contexts
                   (observe PatternLearner.init act context ok hour)
                 = [(act, [context])]).
    { apply (f_equal (fun l => l)). rewrite observe_fields.
      cbn. now rewrite String.eqb_refl. }
    rewrite Hd. cbn [flat_map]. unfold votes at 1. cbn [snd fst filter].
    rewrite Hsim. reflexivity.
Qed.

Lemma observed_context_is_recognised_witness :
  predict_from_context
    (observe PatternLearner.init "reporting" "Weekly  sales report" true 9)
    "Weekly  sales report"
  = Ok (Some "reporting").
Proof.
  apply (observed_context_is_recognised PatternLearner.init "reporting"
           "Weekly  sales report" true 9).
  - reflexivity.
  - reflexivity.
Defined.

(* ================================================================== *)
(** * Intent prediction *)
(* ================================================================== *)

Lemma lower_ascii_idem (c : ascii) :
  lower_ascii (lower_ascii c) = lower_ascii c.
Proof.
  destruct c as [[] [] [] [] [] [] [] []]; reflexivity.
Qed.

Lemma lower_ascii_newline (c : ascii) :
  Ascii.eqb (lower_ascii c) Re.newline = Ascii.eqb c Re.newline.
Proof.
  destruct c as [[] [] [] [] [] [] [] []]; reflexivity.
Qed.

Lemma lower_idem (s : string) : lower (lower s) = lower s.
Proof.
  induction s as [|c s IH]; simpl; [reflexivity|].
  now rewrite lower_ascii_idem, IH.
Qed.

Lemma any_upto_lower (n : nat) :
  forall (s : string) (k k' : string -> bool),
    (forall t, k' (lower t) = k t) ->
    Re.any_upto n (lower s) k' = Re.any_upto n s k.
Proof.
  induction n as [|n IH]; intros s k k' Hk; simpl.
  - now rewrite Hk.
  - rewrite Hk. destruct s as [|c s]; simpl; [reflexivity|].
    now rewrite lower_ascii_newline, (IH s k k' Hk).
Qed.

Lemma matches_at_lower (r : Re.regex) :
  forall (s : string) (k k' : string -> bool),
    (forall t, k' (lower t) = k t) ->
    Re.matches_at r (lower s) k' = Re.matches_at r s k.
Proof.
  induction r as [|c|r1 IH1 r2 IH2|r1 IH1 r2 IH2|n];
    intros s k k' Hk; simpl.
  - apply Hk.
  - destruct s as [|c' s]; simpl; [reflexivity|].
    now rewrite lower_ascii_idem, Hk.
  - apply IH1. intros t. now apply IH2.
  - now rewrite (IH1 s k k' Hk), (IH2 s k k' Hk).
  - now apply any_upto_lower.
Qed.

Lemma search_lower (r : Re.regex) (s : string) :
  Re.search r (lower s) = Re.search r s.
Proof.
  induction s as [|c s IH]; simpl.
  - reflexivity.
  - rewrite IH. f_equal.
    now apply (matches_at_lower r (String c s)).
Qed.

Lemma match_rules_lower (rules : list (Re.regex * string)) (text : string) :
  IntentPredictor.match_rules rules (lower text)
  = IntentPredictor.match_rules rules text.
Proof.
  induction rules as [|[p i] rules IH]; simpl; [reflexivity|].
  now rewrite search_lower, IH.
Qed.

Lemma predict_lower (text : string) (context : IntentPredictor.context_t) :
  IntentPredictor.predict (lower text) context
  = IntentPredictor.predict text context.
Proof.
  unfold IntentPredictor.predict, IntentPredictor.match_patterns.
  rewrite match_rules_lower.
  destruct (IntentPredictor.match_rules IntentPredictor.intent_patterns text)
    as [[intent|] base]; [|reflexivity].
  unfold IntentPredictor.boost_confidence. now rewrite lower_idem.
Qed.

(** X13: [predict] does not see the case of ASCII letters: two texts that
    are equal once lowered get the same intent and the same
    confidence. *)
Theorem predict_ignores_case (text1 text2 : string)
    (context : IntentPredictor.context_t) :
  lower text1 = lower text2 ->
  IntentPredictor.predict text1 context
  = IntentPredictor.predict text2 context.
Proof.
  intros H.
  rewrite <- (predict_lower text1), <- (predict_lower text2).
  now rewrite H.
Qed.

Lemma predict_ignores_case_witness :
  IntentPredictor.predict "PLEASE Clean The CSV File" None
  = IntentPredictor.predict "please clean the csv file" None.
Proof.
  apply (predict_ignores_case "PLEASE Clean The CSV File"
           "please clean the csv file" None).
  reflexivity.
Defined.

Lemma match_rules_result (rules : list (Re.regex * string)) (text : string) :
  IntentPredictor.match_rules rules text = (None, 0)
  \/ exists pattern intent,
       In (pattern, intent) rules
       /\ Re.search pattern text = true
       /\ IntentPredictor.match_rules rules text = (Some intent, 6 # 10).
Proof.
  induction rules as [|[p i] rules IH]; simpl.
  - now left.
  - destruct (Re.search p text) eqn:E.
    + right. exists p, i. repeat split; [now left | exact E].
    + destruct IH as [IH|(p' & i' & Hin & Hhit & Hres)]; [now left|].
      right. exists p', i'. repeat split; [now right | exact Hhit | exact Hres].
Qed.

(** X14: [predict] answers either ['unknown'] with confidence 0.0, or the
    intent of a declared rule whose pattern occurs in the text, with a
    confidence between 0.6 and 1.0. *)
Theorem predict_range (text : string) (context : IntentPredictor.context_t) :
  IntentPredictor.predict text context = ("unknown", 0)
  \/ exists pattern intent conf,
       IntentPredictor.predict text context = (intent, conf)
       /\ In (pattern, intent) IntentPredictor.intent_patterns
       /\ Re.search pattern text = true
       /\ 6 # 10 <= conf <= 1.
Proof.
  unfold IntentPredictor.predict, IntentPredictor.match_patterns.
  destruct (match_rules_result IntentPredictor.intent_patterns text)
    as [Hnone|(p & i & Hin & Hhit & Hres)].
  - rewrite Hnone. now left.
  - rewrite Hres. destruct (truthy_str i); [|now left].
    right. exists p, i. eexists. split; [reflexivity|].
    split; [exact Hin|]. split; [exact Hhit|].
    rewrite boost_confidence_formula.
    pose proof (keyword_boost_range (booster_hits i text)) as [Hlo _].
    split.
    + apply Q.min_glb; [|discriminate].
      destruct (mem i (IntentPredictor.recent_actions_of context)); lra.
    + apply Q.le_min_r.
Qed.

Lemma index_last_snoc {A} (l : list A) (x : A) :
  index_last (l ++ [x]) = Ok x.
Proof.
  destruct l as [|y l]; [reflexivity|].
  change ((y :: l) ++ [x]) with (y :: (l ++ [x])).
  rewrite index_last_ok. f_equal. apply last_last.
Qed.

Lemma lookup_tuple_in (key : list string)
    (table : list (list string * (string * Q))) (v : string * Q) :
  IntentPredictor.lookup_tuple key table = Some v -> In (key, v) table.
Proof.
  induction table as [|[k v'] table IH]; simpl; intros H; [discriminate|].
  destruct (list_eq_dec string_dec k key) as [->|Hne].
  - inversion H. now left.
  - right. now apply IH.
Qed.

(** X15: the table-driven [predict_next_action] never raises, looks only
    at the last two actions of the sequence, answers ['unknown'] with
    0.0 on an empty sequence, and otherwise either ['unknown'] with 0.0
    or a label with a confidence between 0.4 and 0.8. *)
Theorem table_prediction_uses_last_two :
  (forall pre a b,
      IntentPredictor.predict_next_action (pre ++ [a; b])
      = IntentPredictor.predict_next_action [a; b])
  /\ IntentPredictor.predict_next_action [] = Ok ("unknown", 0)
  /\ forall action_sequence,
       IntentPredictor.predict_next_action action_sequence
       = Ok ("unknown", 0)
       \/ exists label conf,
            IntentPredictor.predict_next_action action_sequence
            = Ok (label, conf)
            /\ label <> "unknown"
            /\ 4 # 10 <= conf <= 8 # 10.
Proof.
  split; [|split; [reflexivity|]].
  - intros pre a b.
    unfold IntentPredictor.predict_next_action.
    assert (Htwo : IntentPredictor.last_two (pre ++ [a; b]) = [a; b]).
    { unfold IntentPredictor.last_two. rewrite length_app. simpl length.
      replace (length pre + 2 - 2)%nat with (length pre + 0)%nat by lia.
      rewrite skipn_app, Nat.add_comm, skipn_all2 by lia.
      replace (0 + length pre - length pre)%nat with 0%nat by lia.
      reflexivity. }
    assert (Hlast : index_last (pre ++ [a; b]) = Ok b).
    { replace (pre ++ [a; b]) with ((pre ++ [a]) ++ [b])
        by now rewrite <- app_assoc.
      apply index_last_snoc. }
    assert (Hlen : (2 <=? length (pre ++ [a; b]))%nat = true).
    { apply Nat.leb_le. rewrite length_app. simpl. lia. }
    assert (Htruthy : truthy_list (pre ++ [a; b]) = true)
      by (destruct pre; reflexivity).
    rewrite Htruthy, Hlen, Htwo, Hlast. reflexivity.
  - intros l. unfold IntentPredictor.predict_next_action.
    destruct l as [|x l]; [now left|]. cbn [truthy_list negb].
    destruct (if (2 <=? length (x :: l))%nat
              then IntentPredictor.lookup_tuple
                     (IntentPredictor.last_two (x :: l))
                     IntentPredictor.sequences
              else None) as [[label conf]|] eqn:E.
    + right. exists label, conf. split; [reflexivity|].
      destruct (2 <=? length (x :: l))%nat; [|discriminate].
      apply lookup_tuple_in in E.
      repeat destruct E as [E|E]; try contradiction;
        inversion E; subst; repeat split; discriminate.
    + rewrite index_last_ok. cbn [bind].
      destruct (Dict.get IntentPredictor.continuations (last l x))
        as [[label conf]|] eqn:Ec; [|now left].
      right. exists label, conf. split; [reflexivity|].
      apply dict_get_in in Ec.
      repeat destruct Ec as [Ec|Ec]; try contradiction;
        inversion Ec; subst; repeat split; discriminate.
Qed.

(* ================================================================== *)
(** * Patterns in recalled memories *)
(* ================================================================== *)

Lemma index_at {A} (pre : list A) (a : A) (tl : list A) :
  index (pre ++ a :: tl) (length pre) = Ok a.
Proof.
  unfold index. rewrite nth_error_app2 by lia.
  now rewrite Nat.sub_diag.
Qed.

(** The loop of [detect_sequences] never indexes out of range. *)
Lemma neighbour_loop (rest : list string) :
  forall (pre : list string) (acc : list (list string)),
    for_each (seq (length pre) (length rest - 1))
      (fun acc i =>
         a <- index (pre ++ rest) i ;;
         b <- index (pre ++ rest) (i + 1) ;;
         Ok (acc ++ [[a; b]]))
      acc
    = Ok (acc ++ adjacent rest).
Proof.
  induction rest as [|a rest IH]; intros pre acc.
  - simpl. now rewrite app_nil_r.
  - destruct rest as [|b tl].
    + simpl. now rewrite app_nil_r.
    + replace (length (a :: b :: tl) - 1)%nat with (S (length (b :: tl) - 1))
        by (simpl; lia).
      cbn [seq for_each].
      rewrite index_at, index_middle. cbn [bind].
      specialize (IH (pre ++ [a]) (acc ++ [[a; b]])).
      rewrite length_app in IH. simpl length in IH.
      rewrite Nat.add_1_r in IH.
      rewrite <- app_assoc in IH. simpl app in IH.
      simpl length. rewrite IH.
      change (adjacent (a :: b :: tl)) with ([a; b] :: adjacent (b :: tl)).
      now rewrite <- app_assoc.
Qed.

Lemma tuple_eqb_eq (a b : list string) :
  AdaptiveEngine.tuple_eqb a b = true <-> a = b.
Proof.
  unfold AdaptiveEngine.tuple_eqb.
  destruct (list_eq_dec string_dec a b); split; congruence.
Qed.

Lemma nodup_keys_filter {K} (f : K * nat -> bool) (c : list (K * nat)) :
  NoDup (map fst c) -> NoDup (map fst (filter f c)).
Proof.
  induction c as [|e c IH]; simpl; intros H; [constructor|].
  inversion H as [|? ? Hnotin Hnd]; subst.
  destruct (f e); simpl; [|now apply IH].
  constructor; [|now apply IH].
  intros Hin. apply Hnotin.
  apply in_map_iff in Hin as (e' & He & Hin).
  apply filter_In in Hin as [Hin _].
  apply in_map_iff. now exists e'.
Qed.

(** X16: [detect_sequences] never raises and returns, without
    repetition, exactly the pairs of neighbouring actions that occur at
    least twice in the list. *)
Theorem detect_sequences_repeated_pairs (actions : list string) :
  exists found,
    AdaptiveEngine.detect_sequences actions = Ok found
    /\ NoDup found
    /\ forall pair,
         In pair found
         <-> (2 <= count_occ (list_eq_dec string_dec)
                     (adjacent actions) pair)%nat.
Proof.
  unfold AdaptiveEngine.detect_sequences.
  pose proof (neighbour_loop actions [] []) as Hloop.
  simpl length in Hloop. simpl app in Hloop.
  rewrite Hloop. cbn [bind]. eexists. split; [reflexivity|]. split.
  - apply nodup_keys_filter.
    apply (tally_of_list_nodup AdaptiveEngine.tuple_eqb
             (list_eq_dec string_dec) tuple_eqb_eq).
  - intros pair. rewrite in_map_iff. split.
    + intros ([p n] & Hp & Hin). simpl in Hp. subst p.
      apply filter_In in Hin as [Hin Hn]. simpl in Hn.
      apply Nat.ltb_lt in Hn.
      apply (tally_of_list_entries AdaptiveEngine.tuple_eqb
               (list_eq_dec string_dec) tuple_eqb_eq) in Hin as [-> _].
      lia.
    + intros Hcount.
      exists (pair, count_occ (list_eq_dec string_dec)
                      (adjacent actions) pair).
      split; [reflexivity|]. apply filter_In. split.
      * apply (tally_of_list_entries AdaptiveEngine.tuple_eqb
                 (list_eq_dec string_dec) tuple_eqb_eq).
        split; [reflexivity | lia].
      * apply Nat.ltb_lt. simpl. lia.
Qed.

Lemma detect_sequences_ok (actions : list string) :
  exists found, AdaptiveEngine.detect_sequences actions = Ok found.
Proof.
  unfold AdaptiveEngine.detect_sequences.
  pose proof (neighbour_loop actions [] []) as Hloop.
  simpl length in Hloop. simpl app in Hloop.
  rewrite Hloop. eexists. reflexivity.
Qed.

Section RecalledMemories.

Import AdaptiveEngine.

Lemma read_memory_label (m : memory) (label : string)
    (acts ctxs stamps : list value) :
  memory_action m = Some label ->
  exists c t,
    read_memory (acts, ctxs, stamps) m
    = Ok (acts ++ [VStr label], ctxs ++ [c], stamps ++ [t]).
Proof.
  unfold memory_action, read_memory.
  destruct (Dict.get m "metadata") as [[| | | | |d]|]; try discriminate.
  - cbn [value_get bind].
    destruct (Dict.get d "action") as [[| | |a| |]|]; try discriminate;
      intros H; inversion H; subst; eexists; eexists; reflexivity.
  - intros H. inversion H; subst. cbn [value_get bind Dict.get].
    eexists. eexists. reflexivity.
Qed.

(** With labelled memories the loop fills the action list with their
    labels and never raises. *)
Lemma read_memories_labels (memories : list memory) :
  forall (labels : list string) (acts ctxs stamps : list value),
    map memory_action memories = map Some labels ->
    exists ctxs' stamps',
      for_each memories read_memory (acts, ctxs, stamps)
      = Ok (acts ++ map VStr labels, ctxs', stamps').
Proof.
  induction memories as [|m ms IH]; intros labels acts ctxs stamps Hmap.
  - destruct labels; [|discriminate]. simpl. rewrite app_nil_r.
    now exists ctxs, stamps.
  - destruct labels as [|label labels]; [discriminate|].
    simpl in Hmap. inversion Hmap as [[Hm Hms]].
    destruct (read_memory_label m label acts ctxs stamps Hm)
      as (c & t & Hread).
    cbn [for_each]. rewrite Hread. cbn [bind].
    destruct (IH labels (acts ++ [VStr label]) (ctxs ++ [c])
                (stamps ++ [t]) Hms) as (ctxs' & stamps' & Hrest).
    rewrite Hrest. exists ctxs', stamps'.
    now rewrite <- app_assoc.
Qed.

Lemma read_memory_bad_metadata (m : memory)
    (lists : list value * list value * list value) :
  metadata_ok m = false -> read_memory lists m = Raise AttributeError.
Proof.
  unfold metadata_ok, read_memory. destruct lists as [[acts ctxs] stamps].
  destruct (Dict.get m "metadata") as [[| | | | |d]|];
    try discriminate; reflexivity.
Qed.

Lemma read_memory_outcome (m : memory)
    (lists : list value * list value * list value) :
  read_memory lists m = Raise AttributeError
  \/ exists lists', read_memory lists m = Ok lists'.
Proof.
  unfold read_memory. destruct lists as [[acts ctxs] stamps].
  destruct (Dict.get m "metadata") as [[| | | | |d]|];
    try (left; reflexivity); right; eexists; reflexivity.
Qed.

(** A memory whose metadata is not a dictionary stops the loop with an
    [AttributeError]. *)
Lemma read_memories_bad_metadata (memories : list memory) :
  forall lists,
    (exists m, In m memories /\ metadata_ok m = false) ->
    for_each memories read_memory lists = Raise AttributeError.
Proof.
  induction memories as [|m0 ms IH]; intros lists (m & Hin & Hbad).
  - destruct Hin.
  - cbn [for_each].
    destruct (read_memory_outcome m0 lists) as [Hraise|(lists' & Hok)].
    + now rewrite Hraise.
    + rewrite Hok. cbn [bind]. apply IH.
      destruct Hin as [->|Hin]; [|now exists m].
      rewrite (read_memory_bad_metadata m lists Hbad) in Hok. discriminate.
Qed.

Lemma lift_counter_get (c : Tally.t string) (k : string) :
  Tally.get value_eqb (lift_counter c) (VStr k) = Tally.get String.eqb c k.
Proof.
  induction c as [|[k' n] c IH]; simpl; [reflexivity|].
  now rewrite IH.
Qed.

Lemma lift_counter_set (c : Tally.t string) (k : string) (n : nat) :
  Tally.set value_eqb (lift_counter c) (VStr k) n
  = lift_counter (Tally.set String.eqb c k n).
Proof.
  induction c as [|[k' n'] c IH]; simpl; [reflexivity|].
  destruct (k' =? k); simpl; [reflexivity | now rewrite IH].
Qed.

Lemma lift_counter_fold (labels : list string) :
  forall c,
    fold_left (Tally.incr value_eqb) (map VStr labels) (lift_counter c)
    = lift_counter (fold_left (Tally.incr String.eqb) labels c).
Proof.
  induction labels as [|x labels IH]; intros c; simpl; [reflexivity|].
  rewrite <- IH. f_equal. unfold Tally.incr.
  rewrite lift_counter_get.
  destruct (Tally.get String.eqb c x); apply lift_counter_set.
Qed.

(** Counting string labels as values gives the counter of the labels. *)
Lemma counter_of_labels (labels : list string) :
  counter_of_values (map VStr labels)
  = Ok (lift_counter (Tally.of_list String.eqb labels)).
Proof.
  unfold counter_of_values.
  rewrite (for_each_pure (Tally.incr value_eqb)).
  - f_equal. apply (lift_counter_fold labels []).
  - intros c x Hin. apply in_map_iff in Hin as (l & <- & _). reflexivity.
Qed.

Lemma lift_counter_top (c : Tally.t string) :
  Tally.most_common1 (lift_counter c)
  = lift_counter (Tally.most_common1 c).
Proof.
  destruct c as [|e c]; [reflexivity|]. simpl. f_equal.
  revert e. induction c as [|x c IH]; intros e; simpl; [reflexivity|].
  destruct (snd x <=? snd e)%nat; apply IH.
Qed.

Lemma neighbours_elements {A} (l : list A) (pair : list A) :
  In pair (neighbours l) -> forall x, In x pair -> In x l.
Proof.
  induction l as [|a l IH]; [intros []|].
  destruct l as [|b tl]; [intros []|].
  change (neighbours (a :: b :: tl)) with ([a; b] :: neighbours (b :: tl)).
  intros [<-|Hin] x Hx.
  - destruct Hx as [<-|[<-|[]]]; [now left | right; now left].
  - right. now apply (IH Hin).
Qed.

Lemma neighbour_value_loop (rest : list value) :
  forall (pre : list value) (acc : list (list value)),
    for_each (seq (length pre) (length rest - 1))
      (fun acc i =>
         a <- index (pre ++ rest) i ;;
         b <- index (pre ++ rest) (i + 1) ;;
         Ok (acc ++ [[a; b]]))
      acc
    = Ok (acc ++ neighbours rest).
Proof.
  induction rest as [|a rest IH]; intros pre acc.
  - simpl. now rewrite app_nil_r.
  - destruct rest as [|b tl].
    + simpl. now rewrite app_nil_r.
    + replace (length (a :: b :: tl) - 1)%nat with (S (length (b :: tl) - 1))
        by (simpl; lia).
      cbn [seq for_each].
      rewrite index_at, index_middle. cbn [bind].
      specialize (IH (pre ++ [a]) (acc ++ [[a; b]])).
      rewrite length_app in IH. simpl length in IH.
      rewrite Nat.add_1_r in IH.
      rewrite <- app_assoc in IH. simpl app in IH.
      simpl length. rewrite IH.
      change (neighbours (a :: b :: tl))
        with ([a; b] :: neighbours (b :: tl)).
      now rewrite <- app_assoc.
Qed.

Lemma detect_value_sequences_ok (acts : list value) :
  (forall x, In x acts -> hashable x = true) ->
  exists found, detect_value_sequences acts = Ok found.
Proof.
  intros Hhash. unfold detect_value_sequences.
  pose proof (neighbour_value_loop acts [] []) as Hloop.
  simpl length in Hloop. simpl app in Hloop.
  rewrite Hloop. cbn [bind]. unfold counter_of_tuples.
  rewrite (for_each_pure (Tally.incr tuple_value_eqb)).
  - cbn [bind]. eexists. reflexivity.
  - intros c pair Hin.
    assert (Hall : forallb hashable pair = true).
    { apply forallb_forall. intros x Hx. apply Hhash.
      now apply (neighbours_elements acts pair). }
    now rewrite Hall.
Qed.

(** X17: on a non-empty list of recalled memories, [analyze_patterns]
    raises [AttributeError] as soon as one memory carries metadata
    that is not a dictionary; when every memory has an action label
    (metadata missing or a dictionary, action missing or a string) it
    does not raise, counts every memory, names as most common a label
    that occurs and that no other label beats in frequency, and
    reports as confidence that label's share of the memories, above 0
    and at most 1. *)
Theorem analyze_patterns_confidence_is_share (memories : list memory) :
  memories <> [] ->
  ((exists m, In m memories /\ metadata_ok m = false) ->
   analyze_patterns memories = Raise AttributeError)
  /\ forall labels,
       map memory_action memories = map Some labels ->
       exists found a,
         analyze_patterns memories = Ok found
         /\ total_samples found = length memories
         /\ most_common_action found = Some (VStr a)
         /\ In a labels
         /\ (forall b,
               (count_occ string_dec labels b
                <= count_occ string_dec labels a)%nat)
         /\ confidence found
            == inject_Z (Z.of_nat (count_occ string_dec labels a))
               / inject_Z (Z.of_nat (length memories))
         /\ 0 < confidence found <= 1.
Proof.
  intros Hne. destruct memories as [|m ms]; [congruence|].
  unfold analyze_patterns. cbn [truthy_list negb]. split.
  - intros Hbad.
    now rewrite (read_memories_bad_metadata (m :: ms) ([], [], []) Hbad).
  - intros labels Hmap.
    assert (Hlen : length labels = length (m :: ms)).
    { apply (f_equal (@length _)) in Hmap. now rewrite !length_map in Hmap. }
    destruct (read_memories_labels (m :: ms) labels [] [] [] Hmap)
      as (ctxs & stamps & Hloop).
    rewrite Hloop. cbn [bind app].
    rewrite counter_of_labels. cbn [bind].
    assert (Hseqs : exists seqs,
               (if (3 <=? length (map VStr labels))%nat
                then detect_value_sequences (map VStr labels) else Ok [])
               = Ok seqs).
    { destruct (3 <=? length (map VStr labels))%nat; [|now exists []].
      apply detect_value_sequences_ok.
      intros x Hx. apply in_map_iff in Hx as (l & <- & _). reflexivity. }
    destruct Hseqs as [seqs Hseqs]. rewrite Hseqs. cbn [bind].
    destruct (tally_top_spec String.eqb string_dec String.eqb_eq labels)
      as (a & Htop & Hin & Hmax).
    { destruct labels; [discriminate | discriminate]. }
    rewrite lift_counter_top, Htop.
    cbn [lift_counter map fst snd truthy_list index nth_error bind].
    rewrite length_map. unfold truediv.
    destruct (Z.eqb_spec (Z.of_nat (length labels)) 0) as [E|_];
      [rewrite Hlen in E; simpl in E; lia|].
    cbn [bind]. eexists. exists a. split; [reflexivity|].
    cbn [total_samples most_common_action confidence].
    rewrite <- Hlen.
    assert (Hpos : 0 < inject_Z (Z.of_nat (length labels))).
    { unfold Qlt. rewrite Hlen. simpl. lia. }
    assert (Hcount : (0 < count_occ string_dec labels a <= length labels)%nat).
    { split; [now apply count_occ_In | apply count_occ_bound]. }
    clear Hloop Hseqs Htop Hmap.
    repeat split; try assumption; try reflexivity.
    + apply Qlt_shift_div_l; [exact Hpos|].
      rewrite Qmult_0_l. unfold Qlt. simpl. lia.
    + apply Qle_shift_div_r; [exact Hpos|].
      rewrite Qmult_1_l. unfold Qle. simpl. lia.
Qed.

Lemma analyze_patterns_confidence_is_share_witness :
  analyze_patterns [[("content", VStr "c"); ("metadata", VNone)]]
  = Raise AttributeError
  /\ exists found,
       analyze_patterns
         [ [("content", VStr "ship the release");
            ("metadata",
             VDict [("action", VStr "deployment");
                    ("success", VBool true)])];
           [("id", VNum 7)];
           [("content", VStr "ship it again");
            ("metadata",
             VDict [("timestamp", VStr "today");
                    ("action", VStr "deployment")])] ]
       = Ok found
       /\ most_common_action found = Some (VStr "deployment")
       /\ confidence found == 2 # 3.
Proof.
  split.
  - apply (analyze_patterns_confidence_is_share
             [[("content", VStr "c"); ("metadata", VNone)]]);
      [discriminate|].
    exists [("content", VStr "c"); ("metadata", VNone)].
    split; [now left | reflexivity].
  - destruct (analyze_patterns_confidence_is_share
                [ [("content", VStr "ship the release");
                   ("metadata",
                    VDict [("action", VStr "deployment");
                           ("success", VBool true)])];
                  [("id", VNum 7)];
                  [("content", VStr "ship it again");
                   ("metadata",
                    VDict [("timestamp", VStr "today");
                           ("action", VStr "deployment")])] ])
      as [_ Hlabels]; [discriminate|].
    destruct (Hlabels ["deployment"; "unknown"; "deployment"] eq_refl)
      as (found & a & Hrun & _ & Hbest & _ & _ & Hconf & _).
    exists found. split; [exact Hrun|].
    assert (Ha : a = "deployment").
    { vm_compute in Hrun. inversion Hrun as [Hfound].
      rewrite <- Hfound in Hbest. simpl in Hbest. now inversion Hbest. }
    subst a. split; [exact Hbest|].
    rewrite Hconf. reflexivity.
Defined.

End RecalledMemories.

(* ================================================================== *)
(** * The recent-action buffer *)
(* ================================================================== *)

Lemma deque_append_window {A} (all : list A) (x : A) :
  AdaptiveEngine.deque_append AdaptiveEngine.buffer_maxlen
    (skipn (length all - 20) all) x
  = skipn (length (all ++ [x]) - 20) (all ++ [x]).
Proof.
  unfold AdaptiveEngine.deque_append, AdaptiveEngine.buffer_maxlen.
  set (k := (length all - 20)%nat).
  assert (Hk : (k <= length all)%nat) by (unfold k; lia).
  replace (skipn k all ++ [x]) with (skipn k (all ++ [x])).
  - rewrite skipn_skipn. f_equal.
    rewrite length_skipn, !length_app. simpl. unfold k. lia.
  - rewrite skipn_app.
    replace (k - length all)%nat with 0%nat by lia. reflexivity.
Qed.

Lemma observe_actions_snoc {A} (self : AdaptiveEngine.observer A)
    (calls : list (A * (bool * bool))) (call : A * (bool * bool)) :
  observe_actions self (calls ++ [call])
  = AdaptiveEngine.observe_action (observe_actions self calls)
      (fst call) (fst (snd call)) (snd (snd call)).
Proof.
  unfold observe_actions. now rewrite fold_left_app.
Qed.

Lemma observe_actions_buffer {A} (calls : list (A * (bool * bool))) :
  AdaptiveEngine.action_buffer
    (observe_actions
       {| AdaptiveEngine.action_buffer := [];
          AdaptiveEngine.interactions_tracked := 0 |} calls)
  = skipn (length calls - 20) (map fst calls).
Proof.
  induction calls as [|call calls IH] using rev_ind; [reflexivity|].
  rewrite observe_actions_snoc.
  cbn [AdaptiveEngine.observe_action AdaptiveEngine.action_buffer].
  rewrite IH, map_app. cbn [map].
  rewrite <- (length_map fst calls) at 1.
  rewrite (deque_append_window (map fst calls) (fst call)).
  now rewrite !length_app, !length_map.
Qed.

Lemma observe_actions_tracked {A} (calls : list (A * (bool * bool))) :
  AdaptiveEngine.interactions_tracked
    (observe_actions
       {| AdaptiveEngine.action_buffer := [];
          AdaptiveEngine.interactions_tracked := 0 |} calls)
  = Z.of_nat
      (length (filter (fun call => fst (snd call) && snd (snd call)) calls)).
Proof.
  induction calls as [|call calls IH] using rev_ind; [reflexivity|].
  rewrite observe_actions_snoc.
  cbn [AdaptiveEngine.observe_action AdaptiveEngine.interactions_tracked].
  rewrite filter_app, length_app, IH. cbn [filter].
  destruct (fst (snd call) && snd (snd call)); simpl; lia.
Qed.

(** X18: after any run of [observe_action] calls on an engine with an
    empty buffer, the buffer holds the last 20 observed actions in
    order, all of them when there were fewer, and
    [interactions_tracked] has grown by one for each call that had a
    session and whose request did not fail. *)
Theorem action_buffer_keeps_last_twenty {A} (calls : list (A * (bool * bool))) :
  AdaptiveEngine.action_buffer
    (observe_actions
       {| AdaptiveEngine.action_buffer := [];
          AdaptiveEngine.interactions_tracked := 0 |} calls)
  = skipn (length calls - 20) (map fst calls)
  /\ (length
        (AdaptiveEngine.action_buffer
           (observe_actions
              {| AdaptiveEngine.action_buffer := [];
                 AdaptiveEngine.interactions_tracked := 0 |} calls))
      <= 20)%nat
  /\ AdaptiveEngine.interactions_tracked
       (observe_actions
          {| AdaptiveEngine.action_buffer := [];
             AdaptiveEngine.interactions_tracked := 0 |} calls)
     = Z.of_nat
         (length (filter (fun call => fst (snd call) && snd (snd call)) calls)).
Proof.
  split; [apply observe_actions_buffer|]. split.
  - rewrite observe_actions_buffer, length_skipn, length_map. lia.
  - apply observe_actions_tracked.
Qed.

(* ================================================================== *)
(** * Reusing and dropping cache entries *)
(* ================================================================== *)

Section CacheUse.

Import AdaptiveEngine.

Context {Prediction : Type}.

Implicit Types (self : AdaptiveEngine.t Prediction) (p fresh : Prediction).

(** X19: when a call of [predict_intent] has run the pipeline and stored
    its prediction, a later call for the same user with any context
    that has the same first 50 characters, made less than 300 seconds
    after the entry was written, returns that stored prediction and
    leaves the engine as it is. *)
Theorem predict_intent_reuses_entry self context context' user_id
    now fresh now' later fresh' later' :
  cache_lookup self (cache_key context user_id) now = None ->
  take 50 context' = take 50 context ->
  (0 <= later - now' < seconds 300)%Z ->
  predict_intent
    (snd (predict_intent self context user_id now fresh now'))
    context' user_id later fresh' later'
  = (fresh, snd (predict_intent self context user_id now fresh now')).
Proof.
  intros Hmiss Hprefix Hage.
  rewrite (predict_intent_miss self context user_id now fresh now' Hmiss).
  cbn [snd]. unfold predict_intent at 1.
  assert (Hkey : cache_key context' user_id = cache_key context user_id)
    by (unfold cache_key; now rewrite Hprefix).
  rewrite Hkey.
  rewrite (cache_hit_within_ttl _ (cache_key context user_id) fresh now' later);
    [reflexivity | | exact Hage].
  cbn [pattern_cache]. apply dict_get_set_same.
Qed.

(** X20: storing a prediction under one key changes no answer of the
    cache for any other key. *)
Theorem predict_intent_keeps_other_entries self context user_id
    now fresh now' key later :
  key <> cache_key context user_id ->
  cache_lookup (snd (predict_intent self context user_id now fresh now'))
    key later
  = cache_lookup self key later.
Proof.
  intros Hne. unfold predict_intent.
  destruct (cache_lookup self (cache_key context user_id) now);
    [reflexivity|].
  cbn [snd]. unfold cache_lookup. cbn [pattern_cache].
  rewrite dict_get_set_other by congruence. reflexivity.
Qed.

(** After [clear_cache] every call of [predict_intent] runs the
    pipeline, whatever the clock reads, and the cache then holds that
    one prediction. *)
Theorem clear_cache_forces_recomputation self context user_id
    now fresh now' :
  predict_intent (clear_cache self) context user_id now fresh now'
  = (fresh,
     {| pattern_cache :=
          [(cache_key context user_id,
            {| prediction := fresh; timestamp := now' |})];
        predictions_made := predictions_made self + 1 |}).
Proof.
  reflexivity.
Qed.

End CacheUse.

Lemma predict_intent_reuses_entry_witness :
  AdaptiveEngine.predict_intent
    (snd (AdaptiveEngine.predict_intent AdaptiveEngine.init
            "0123456789012345678901234567890123456789012345678901234"
            "ada" 0%Z "first answer" 1000%Z))
    "01234567890123456789012345678901234567890123456789 and more"
    "ada" (AdaptiveEngine.seconds 299) "second answer"
    (AdaptiveEngine.seconds 299)
  = ("first answer",
     snd (AdaptiveEngine.predict_intent AdaptiveEngine.init
            "0123456789012345678901234567890123456789012345678901234"
            "ada" 0%Z "first answer" 1000%Z)).
Proof.
  apply (predict_intent_reuses_entry AdaptiveEngine.init
           "0123456789012345678901234567890123456789012345678901234"
           "01234567890123456789012345678901234567890123456789 and more"
           "ada" 0%Z "first answer" 1000%Z (AdaptiveEngine.seconds 299)
           "second answer" (AdaptiveEngine.seconds 299)).
  - reflexivity.
  - reflexivity.
  - unfold AdaptiveEngine.seconds. lia.
Defined.

Lemma predict_intent_keeps_other_entries_witness :
  AdaptiveEngine.cache_lookup
    (snd (AdaptiveEngine.predict_intent AdaptiveEngine.init
            "deploy the service" "ada" 0%Z "first answer" 0%Z))
    "bob:deploy the service" 5%Z
  = None.
Proof.
  rewrite (predict_intent_keeps_other_entries AdaptiveEngine.init
             "deploy the service" "ada" 0%Z "first answer" 0%Z
             "bob:deploy the service" 5%Z).
  - reflexivity.
  - discriminate.
Defined.

(* ================================================================== *)
(** * Ties go to the label seen first *)
(* ================================================================== *)

Lemma first_max_split {K} (rest : list (K * nat)) :
  forall (done : list (K * nat)) (cur : K * nat) (mid : list (K * nat)),
    (forall e', In e' done -> (snd e' < snd cur)%nat) ->
    (forall e', In e' mid -> (snd e' <= snd cur)%nat) ->
    exists l1 l2,
      done ++ cur :: mid ++ rest
      = l1
        ++ fold_left
             (fun best e' => if (snd e' <=? snd best)%nat then best else e')
             rest cur
        :: l2
      /\ (forall e',
            In e' l1 ->
            (snd e'
             < snd (fold_left
                      (fun best e' =>
                         if (snd e' <=? snd best)%nat then best else e')
                      rest cur))%nat).
Proof.
  induction rest as [|x rest IH]; intros done cur mid Hdone Hmid.
  - exists done, mid. simpl. rewrite app_nil_r. now split.
  - simpl. destruct (Nat.leb_spec (snd x) (snd cur)) as [Hle|Hgt].
    + destruct (IH done cur (mid ++ [x])) as (l1 & l2 & Heq & Hlt).
      * exact Hdone.
      * intros e' He'. apply in_app_or in He' as [He'|[<-|[]]];
          [now apply Hmid | exact Hle].
      * exists l1, l2. split; [|exact Hlt].
        rewrite <- Heq. now rewrite <- app_assoc.
    + destruct (IH (done ++ cur :: mid) x []) as (l1 & l2 & Heq & Hlt).
      * intros e' He'. apply in_app_or in He' as [He'|[<-|He']].
        -- specialize (Hdone e' He'). lia.
        -- exact Hgt.
        -- specialize (Hmid e' He'). lia.
      * intros e' [].
      * exists l1, l2. split; [|exact Hlt].
        rewrite <- Heq. now rewrite <- app_assoc.
Qed.

Lemma precedes_snoc {A} (a b x : A) (l : list A) :
  precedes a b (l ++ [x]) -> precedes a b l \/ (b = x /\ In a l).
Proof.
  intros (l1 & l2 & Heq & Hin).
  destruct (exists_last (l := l2)) as (l2' & y & ->).
  { intros ->. destruct Hin. }
  replace (l1 ++ a :: l2' ++ [y]) with ((l1 ++ a :: l2') ++ [y]) in Heq
    by now rewrite <- app_assoc.
  apply app_inj_tail in Heq as [-> ->].
  apply in_app_or in Hin as [Hin|[<-|[]]].
  - left. now exists l1, l2'.
  - right. split; [reflexivity|]. apply in_or_app. right. now left.
Qed.

Section TallyOrder.

Context {K : Type}.
Variable eqb : K -> K -> bool.
Variable eq_dec : forall a b : K, {a = b} + {a <> b}.
Hypothesis eqb_eq : forall a b, eqb a b = true <-> a = b.

Lemma tally_of_list_snoc (xs : list K) (x : K) :
  Tally.of_list eqb (xs ++ [x]) = Tally.incr eqb (Tally.of_list eqb xs) x.
Proof.
  unfold Tally.of_list. now rewrite fold_left_app.
Qed.

Lemma tally_key_in_list (xs : list K) (k : K) :
  In k (map fst (Tally.of_list eqb xs)) <-> In k xs.
Proof.
  split.
  - intros Hin. apply in_map_iff in Hin as ([k' n] & Hk & Hin).
    simpl in Hk. subst k'.
    apply (tally_of_list_entries eqb eq_dec eqb_eq) in Hin.
    apply (count_occ_In eq_dec). lia.
  - intros Hpos. apply (count_occ_In eq_dec) in Hpos. apply in_map_iff.
    exists (k, count_occ eq_dec xs k). split; [reflexivity|].
    now apply (tally_of_list_entries eqb eq_dec eqb_eq).
Qed.

(** A key that stands before another in the counter occurred in the
    list before the other did. *)
Lemma tally_keys_first_seen (a b : K) (xs : list K) :
  precedes a b (map fst (Tally.of_list eqb xs)) ->
  exists pre post, xs = pre ++ a :: post /\ ~ In b pre.
Proof.
  induction xs as [|x xs IH] using rev_ind.
  - intros (l1 & l2 & Heq & _). destruct l1; discriminate.
  - rewrite tally_of_list_snoc. unfold Tally.incr.
    intros Hprec.
    assert (Hcases : precedes a b (map fst (Tally.of_list eqb xs))
                     \/ (b = x /\ In a xs /\ ~ In x xs)).
    { destruct (Tally.get eqb (Tally.of_list eqb xs) x) eqn:E;
        rewrite (tally_set_keys eqb), E in Hprec.
      - now left.
      - apply precedes_snoc in Hprec as [Hp|[Hb Ha]]; [now left|].
        right. split; [exact Hb|].
        split; [now apply tally_key_in_list|].
        intros Hx. apply tally_key_in_list in Hx.
        now apply (tally_get_none_keys eqb eqb_eq) in E. }
    destruct Hcases as [Hp|(-> & Ha & Hx)].
    + destruct (IH Hp) as (pre & post & -> & Hb).
      exists pre, (post ++ [x]). split; [|exact Hb].
      now rewrite <- app_assoc.
    + apply in_split in Ha as (pre & post & ->).
      exists pre, (post ++ [x]). split; [now rewrite <- app_assoc|].
      intros Hin. apply Hx. apply in_or_app. now left.
Qed.

(** Among the keys with the largest count, [most_common(1)] names the
    one that occurred first. *)
Lemma tally_top_is_first (xs : list K) (a : K) (n : nat) :
  Tally.most_common1 (Tally.of_list eqb xs) = [(a, n)] ->
  forall b,
    b <> a ->
    count_occ eq_dec xs b = count_occ eq_dec xs a ->
    exists pre post, xs = pre ++ a :: post /\ ~ In b pre.
Proof.
  intros Htop b Hne Hcount.
  destruct (Tally.of_list eqb xs) as [|e c] eqn:E; [discriminate|].
  simpl in Htop. inversion Htop as [Hbest]. clear Htop.
  destruct (first_max_split c [] e []) as (l1 & l2 & Heq & Hlt);
    [intros ? [] | intros ? [] |].
  simpl in Heq. rewrite Hbest in Heq, Hlt. simpl in Hlt.
  assert (Ha : In (a, n) (Tally.of_list eqb xs)).
  { rewrite E, Heq. apply in_or_app. right. now left. }
  apply (tally_of_list_entries eqb eq_dec eqb_eq) in Ha as [Hn Hpos].
  assert (Hb : In (b, n) (Tally.of_list eqb xs)).
  { apply (tally_of_list_entries eqb eq_dec eqb_eq).
    split; [congruence | exact Hpos]. }
  apply tally_keys_first_seen.
  rewrite E, Heq in Hb |- *.
  exists (map fst l1), (map fst l2). split.
  - now rewrite map_app.
  - apply in_app_or in Hb as [Hb|[Hb|Hb]].
    + specialize (Hlt _ Hb). simpl in Hlt. lia.
    + inversion Hb. congruence.
    + apply in_map_iff. now exists (b, n).
Qed.

End TallyOrder.

Lemma most_common_first_seen (xs : list string) (a : string) :
  most_common xs = Some a ->
  forall b,
    b <> a ->
    count_occ string_dec xs b = count_occ string_dec xs a ->
    exists pre post, xs = pre ++ a :: post /\ ~ In b pre.
Proof.
  unfold most_common. rewrite counter_is_tally.
  change (Counter.most_common1 (Tally.of_list String.eqb xs))
    with (Tally.most_common1 (Tally.of_list String.eqb xs)).
  destruct (Tally.most_common1 (Tally.of_list String.eqb xs))
    as [|[a' n] rest] eqn:E; [discriminate|].
  intros H. inversion H; subst a'.
  assert (Hrest : rest = []).
  { destruct (Tally.of_list String.eqb xs); simpl in E;
      [discriminate | now inversion E]. }
  subst rest.
  now apply (tally_top_is_first String.eqb string_dec String.eqb_eq xs a n).
Qed.

(** X3: when several labels follow the last recent action equally often,
    [predict_from_sequences] returns the one that was seen as a
    follower first, in the order of the sequence log. *)
Theorem predict_from_sequences_tie_goes_to_first
    (self : PatternLearner.t) (recent : option (list string))
    (a last : string) :
  predict_from_sequences self recent = Ok (Some a) ->
  last_action recent = Some last ->
  forall b,
    b <> a ->
    count_occ string_dec (flat_map (followers last) (sequences self)) b
    = count_occ string_dec (flat_map (followers last) (sequences self)) a ->
    exists pre post,
      flat_map (followers last) (sequences self) = pre ++ a :: post
      /\ ~ In b pre.
Proof.
  rewrite predict_from_sequences_spec. intros H Hlast. rewrite Hlast in H.
  destruct (truthy_str last); [|discriminate].
  inversion H as [Hmc]. now apply most_common_first_seen.
Qed.

Lemma predict_from_sequences_tie_goes_to_first_witness :
  predict_from_sequences Scenario.tied (Some ["testing"; "build"])
  = Ok (Some "testing")
  /\ exists pre post,
       flat_map (followers "build") (sequences Scenario.tied)
       = pre ++ "testing" :: post
       /\ ~ In "deployment" pre.
Proof.
  split; [vm_compute; reflexivity|].
  apply (predict_from_sequences_tie_goes_to_first Scenario.tied
           (Some ["testing"; "build"]) "testing" "build").
  - vm_compute. reflexivity.
  - reflexivity.
  - discriminate.
  - reflexivity.
Defined.
